(** * qt-brbooth model-conversion scripts: a shallow embedding

    The repository holds four independent Python scripts
    ([convert_yolo.py], [download_tflite_model.py],
    [tools/build_trt_engine.py], [tools/export_mediapipe_hands.py]).
    Each one is glue around third-party calls.  The embedding below keeps
    the control flow of every script as it is written and takes the
    behaviour of the third-party libraries as a parameter (a record of
    outcomes, one field per call).

    Layout: Python strings, exceptions and the script monad, the file
    system, then one module per script, then the theorems. *)

From Stdlib Require Import String Ascii List Bool Arith ZArith Lia.
From stdpp Require Import base gmap strings.
Import ListNotations.

(* ===================================================================== *)
(** ** Python [str] methods used by the scripts *)
(* ===================================================================== *)

Module PyStr.

(** [s.startswith(p)] *)
Definition startswith (s p : string) : bool := String.prefix p s.

(** [s[:n]] for [0 <= n] *)
Definition take (n : nat) (s : string) : string := String.substring 0 n s.

(** [s[n:]] for [0 <= n] *)
Definition drop (n : nat) (s : string) : string :=
  String.substring n (String.length s - n) s.

(** [s.endswith(suf)]: the last [len(suf)] characters of [s] are [suf]. *)
Definition endswith (s suf : string) : bool :=
  Nat.leb (String.length suf) (String.length s)
  && String.eqb (drop (String.length s - String.length suf) s) suf.

(** [sub in s] *)
Fixpoint contains (sub s : string) : bool :=
  String.prefix sub s
  || match s with
     | EmptyString => false
     | String _ s' => contains sub s'
     end.

(** The scan shared by [str.replace] and [str.count]: left to right,
    non-overlapping; [skip] counts the characters of the current match
    that are still to be passed over. *)
Fixpoint replace_from (old new : string) (skip : nat) (s : string) : string :=
  match s with
  | EmptyString => EmptyString
  | String c s' =>
      match skip with
      | S k => replace_from old new k s'
      | O =>
          if String.prefix old (String c s')
          then new +:+ replace_from old new (String.length old - 1) s'
          else String c (replace_from old new 0 s')
      end
  end.

Fixpoint count_from (old : string) (skip : nat) (s : string) : nat :=
  match s with
  | EmptyString => 0
  | String c s' =>
      match skip with
      | S k => count_from old k s'
      | O =>
          if String.prefix old (String c s')
          then S (count_from old (String.length old - 1) s')
          else count_from old 0 s'
      end
  end.

(** With an empty pattern Python puts [new] before every character and
    at the end. *)
Fixpoint interleave (new s : string) : string :=
  match s with
  | EmptyString => new
  | String c s' => new +:+ String c (interleave new s')
  end.

(** [s.replace(old, new)] *)
Definition replace (s old new : string) : string :=
  match old with
  | EmptyString => interleave new s
  | _ => replace_from old new 0 s
  end.

(** [s.count(old)] *)
Definition count (s old : string) : nat :=
  match old with
  | EmptyString => S (String.length s)
  | _ => count_from old 0 s
  end.

(** [sep.join(l)] *)
Fixpoint join (sep : string) (l : list string) : string :=
  match l with
  | [] => EmptyString
  | [x] => x
  | x :: rest => x +:+ sep +:+ join sep rest
  end.

End PyStr.


(* ===================================================================== *)
(** ** Exceptions *)
(* ===================================================================== *)

(** The classes of [Exception] that the scripts name or that their calls
    raise.  [KeyboardInterrupt] and the other classes outside [Exception]
    are signals to the process, not failures of a call, and are left out;
    [SystemExit] is the separate outcome [SysExit] below. *)
Inductive exc_class :=
| Exception
| ImportError | ModuleNotFoundError
| LookupError | KeyError
| ValueError | TypeError | RuntimeError | AttributeError
| OSError | FileNotFoundError | FileExistsError
| IsADirectoryError | NotADirectoryError.

Definition exc_class_eqb (c d : exc_class) : bool :=
  match c, d with
  | Exception, Exception | ImportError, ImportError
  | ModuleNotFoundError, ModuleNotFoundError | LookupError, LookupError
  | KeyError, KeyError | ValueError, ValueError | TypeError, TypeError
  | RuntimeError, RuntimeError | AttributeError, AttributeError
  | OSError, OSError
  | FileNotFoundError, FileNotFoundError | FileExistsError, FileExistsError
  | IsADirectoryError, IsADirectoryError
  | NotADirectoryError, NotADirectoryError => true
  | _, _ => false
  end.

(** The base class, as in Python's built-in hierarchy. *)
Definition base_class (c : exc_class) : option exc_class :=
  match c with
  | Exception => None
  | ModuleNotFoundError => Some ImportError
  | KeyError => Some LookupError
  | FileNotFoundError | FileExistsError
  | IsADirectoryError | NotADirectoryError => Some OSError
  | _ => Some Exception
  end.

Fixpoint issubclass_upto (depth : nat) (c d : exc_class) : bool :=
  exc_class_eqb c d
  || match depth, base_class c with
     | S k, Some b => issubclass_upto k b d
     | _, _ => false
     end.

(** [issubclass(c, d)]; the hierarchy above is three levels deep. *)
Definition issubclass (c d : exc_class) : bool := issubclass_upto 3 c d.

Record exc := Exc { exc_cls : exc_class; exc_msg : string }.

(** [isinstance(e, d)], the test of an [except d] clause. *)
Definition isinstance (e : exc) (d : exc_class) : bool := issubclass (exc_cls e) d.

(** The result of a call into a third-party library. *)
Inductive result (A : Type) :=
| Ok (a : A)
| Err (e : exc).
Arguments Ok {A} a.
Arguments Err {A} e.

(* ===================================================================== *)
(** ** File system, events and the script monad *)
(* ===================================================================== *)

Definition bytes := list Byte.byte.

Inductive node :=
| File (data : bytes)
| Dir.

(** Paths are keys as the scripts write them (relative to the working
    directory), each entry under the one spelling of its path that has
    no empty, [.] or [..] component; the working directory and the roots
    are always there and have no entry.  Failures of the operating
    system that the scripts do not provoke themselves (permissions, full
    disk) and symbolic links are outside the model. *)
Abbreviation fsT := (gmap string node).

Inductive pymodule :=
| numpy | ultralytics | tensorflow | tensorflow_hub | tensorrt
| mediapipe | tflite2onnx.

Inductive activation := relu | softmax.

Inductive layer :=
| Conv2D (filters kernel : nat) (act : activation) (padding_same : bool)
| MaxPooling2D (pool : nat)
| Conv2DTranspose (filters kernel strides : nat) (act : activation) (padding_same : bool).

(** The calls into third-party libraries, with the arguments the scripts
    pass. *)
Inductive libcall :=
(* ultralytics *)
| YOLO_new (model_name : string)
| YOLO_export (format : string) (imgsz opset : nat)
(* tensorflow, tensorflow_hub *)
| Hub_load (url : string)
| Keras_Input
| Keras_layer (l : layer)
| Keras_Model
| Signatures_getitem (key : string)
| From_concrete_functions
| From_keras_model
| Converter_convert
| Interpreter_open (model_path : string)
| Interpreter_invoke
(* tensorrt *)
| Trt_Logger
| Trt_Builder
| Trt_create_network (flags : Z)
| Trt_OnnxParser
| Trt_parse
| Trt_get_error (i : nat)
| Trt_create_builder_config
| Trt_set_memory_pool_limit (limit : Z)
| Trt_set_flag_FP16
| Trt_build_serialized_network
(* tflite2onnx *)
| T2O_convert (src dst : string).

(** What a run does that can be observed: lines on standard output, calls
    into libraries, and the script's own file operations, oldest first.
    [ArgparseHelp] and [ArgparseError] stand for the texts argparse writes
    (help on standard output, usage and error on standard error). *)
Inductive event :=
| Print (line : string)
| Call (c : libcall)
| OpenRead (path : string)
| OpenWrite (path : string)
| Mkdir (path : string)
| ArgparseHelp
| ArgparseError (msg : string).

Record state := State { fs : fsT; trace : list event }.

Inductive outcome (A : Type) :=
| Ret (a : A)
| Raise (e : exc)
| SysExit (code : Z).
Arguments Ret {A} a.
Arguments Raise {A} e.
Arguments SysExit {A} code.

Definition M (A : Type) : Type := state -> outcome A * state.

Definition ret {A} (a : A) : M A := fun s => (Ret a, s).

Definition bind {A B} (m : M A) (k : A -> M B) : M B :=
  fun s =>
    match m s with
    | (Ret a, s') => k a s'
    | (Raise e, s') => (Raise e, s')
    | (SysExit c, s') => (SysExit c, s')
    end.

Declare Scope script_scope.
Delimit Scope script_scope with script.
Notation "x <- m ;; k" := (bind m (fun x => k))
  (at level 100, m at next level, right associativity) : script_scope.
Notation "m ;; k" := (bind m (fun _ => k))
  (at level 100, right associativity) : script_scope.
Open Scope script_scope.

Definition raise {A} (e : exc) : M A := fun s => (Raise e, s).

(** [sys.exit(code)] raises [SystemExit], which no [except Exception]
    clause catches. *)
Definition sys_exit {A} (code : Z) : M A := fun s => (SysExit code, s).

Definition log (ev : event) : M unit :=
  fun s => (Ret tt, State (fs s) (trace s ++ [ev])).

Definition print (line : string) : M unit := log (Print line).

(** [try: body except c1: h1 except c2: h2 ...]: the first clause whose
    class the exception is an instance of handles it. *)
Fixpoint find_handler {A} (e : exc) (hs : list (exc_class * (exc -> M A)))
  : option (exc -> M A) :=
  match hs with
  | [] => None
  | (c, h) :: rest => if isinstance e c then Some h else find_handler e rest
  end.

Definition try_except {A} (body : M A) (hs : list (exc_class * (exc -> M A))) : M A :=
  fun s =>
    match body s with
    | (Raise e, s') =>
        match find_handler e hs with
        | Some h => h e s'
        | None => (Raise e, s')
        end
    | r => r
    end.

(** A library call that does not touch the file system. *)
Definition call {A} (c : libcall) (r : result A) : M A :=
  log (Call c) ;;
  match r with
  | Ok a => ret a
  | Err e => raise e
  end.

(** A library call that may read and write files. *)
Definition call_fs {A} (c : libcall) (f : fsT -> result A * fsT) : M A :=
  log (Call c) ;;
  fun s =>
    match f (fs s) with
    | (Ok a, fs') => (Ret a, State fs' (trace s))
    | (Err e, fs') => (Raise e, State fs' (trace s))
    end.

(** The evaluation of an attribute of a library, such as
    [tf.__version__]: it makes no call, and raises when the attribute is
    not there. *)
Definition attribute {A} (r : result A) : M A :=
  match r with
  | Ok a => ret a
  | Err e => raise e
  end.

(** [import m]: [None] when the import succeeds. *)
Definition import_ (imports : pymodule -> option exc) (m : pymodule) : M unit :=
  match imports m with
  | None => ret tt
  | Some e => raise e
  end.

(** [os.path.exists(p)], [Path(p).exists()] *)
Definition path_exists (p : string) : M bool :=
  fun s => (Ret (bool_decide (is_Some (fs s !! p))), s).

(** [open(p, 'rb')] followed by [f.read()] *)
Definition open_rb_read (p : string) : M bytes :=
  log (OpenRead p) ;;
  fun s =>
    match fs s !! p with
    | Some (File d) => (Ret d, s)
    | Some Dir => (Raise (Exc IsADirectoryError p), s)
    | None => (Raise (Exc FileNotFoundError p), s)
    end.

(** The text of [p] after its last ["/"], as [os.path.basename] gives
    it; [last] is the text read since the last ["/"]. *)
Fixpoint basename_from (last p : string) : string :=
  match p with
  | EmptyString => last
  | String c p' =>
      if Ascii.eqb c "/" then basename_from EmptyString p'
      else basename_from (last +:+ String c EmptyString) p'
  end.

Definition basename (p : string) : string := basename_from EmptyString p.

(** A component that names no entry of its own: the empty one (at a
    root, or between two slashes), [.] and [..]. *)
Definition no_entry (part : string) : bool :=
  String.eqb part "" || String.eqb part "." || String.eqb part "..".

(** The way to [p]: every text of [p] that ends before a ["/"] names a
    directory, from left to right; [seen] is the text read so far and
    [part] its last component.  The first one that is a file or is not
    there gives the error; a component that names no entry of its own
    is passed over. *)
Fixpoint way_error (files : fsT) (seen part rest : string) : option exc_class :=
  match rest with
  | EmptyString => None
  | String c rest' =>
      if Ascii.eqb c "/" then
        if no_entry part then way_error files (seen +:+ "/") "" rest'
        else
          match files !! seen with
          | Some Dir => way_error files (seen +:+ "/") "" rest'
          | Some (File _) => Some NotADirectoryError
          | None => Some FileNotFoundError
          end
      else
        way_error files (seen +:+ String c EmptyString) (part +:+ String c EmptyString) rest'
  end.

(** The exception of [open(p, 'wb')], if any: the empty path is not
    found; a path that ends with ["/"], or in [.] or [..], or that names
    a directory, is a directory; and the directories on the way must be
    there.  The message is shortened to the path.  The file is kept
    under the spelling [p]. *)
Definition open_error (files : fsT) (p : string) : option exc :=
  if String.eqb p "" then Some (Exc FileNotFoundError p)
  else if PyStr.endswith p "/" then Some (Exc IsADirectoryError p)
  else
    match way_error files "" "" p with
    | Some c => Some (Exc c p)
    | None =>
        if no_entry (basename p) then Some (Exc IsADirectoryError p)
        else
          match files !! p with
          | Some Dir => Some (Exc IsADirectoryError p)
          | _ => None
          end
    end.

(** [open(p, 'wb')]: creates the file or truncates it, when it can be
    opened. *)
Definition open_wb (p : string) : M unit :=
  log (OpenWrite p) ;;
  fun s =>
    match open_error (fs s) p with
    | Some e => (Raise e, s)
    | None => (Ret tt, State (<[p := File []]> (fs s)) (trace s))
    end.

(** [f.write(data)] on the file opened at [p] *)
Definition write (p : string) (data : bytes) : M unit :=
  fun s =>
    (Ret tt,
     State (alter (fun n => match n with
                            | File d => File (d ++ data)
                            | Dir => Dir
                            end) p (fs s))
           (trace s)).

(** How a process ends. *)
Inductive termination :=
| Completed
| Exited (code : Z)
| Unhandled (e : exc).

Definition run_script (m : M unit) (s : state) : termination * state :=
  match m s with
  | (Ret _, s') => (Completed, s')
  | (SysExit c, s') => (Exited c, s')
  | (Raise e, s') => (Unhandled e, s')
  end.

(** The exit status the operating system sees: an uncaught exception
    gives 1, [sys.exit(c)] the low eight bits of [c]. *)
Definition exit_status (t : termination) : Z :=
  match t with
  | Completed => 0
  | Exited c => c mod 256
  | Unhandled _ => 1
  end.

Definition printed (line : string) (s : state) : Prop := In (Print line) (trace s).

Definition nl : string := String (ascii_of_nat 10) EmptyString.

(** [s * n] *)
Fixpoint str_mul (s : string) (n : nat) : string :=
  match n with
  | O => EmptyString
  | S k => s +:+ str_mul s k
  end.

(** [os.path.getsize(p)]; the size reported for a directory depends on
    the platform and is taken as 0. *)
Definition getsize (p : string) : M nat :=
  fun s =>
    match fs s !! p with
    | Some (File d) => (Ret (length d), s)
    | Some Dir => (Ret 0, s)
    | None => (Raise (Exc FileNotFoundError p), s)
    end.

(* ===================================================================== *)
(** ** convert_yolo.py: the detection-model exporter *)
(* ===================================================================== *)

Module Yolo.

(** The ultralytics package and the Python runtime, as the script sees
    them.  [YOLO name] is the constructor call (it may download the
    checkpoint), [export name] is [model.export(format='onnx',
    imgsz=640, opset=11)] on the model loaded from [name]; both may
    change files.  [mb_text n] is the text of [n / (1024 * 1024)]
    under the format [:.2f]. *)
Record world := World {
  imports : pymodule -> option exc;
  YOLO : string -> fsT -> result unit * fsT;
  export : string -> fsT -> result unit * fsT;
  mb_text : nat -> string
}.

(** The files after [YOLO(model_name)] and [model.export(...)], started
    on [files]. *)
Definition files_after_export (w : world) (model_name : string) (files : fsT) : fsT :=
  snd (export w model_name (snd (YOLO w model_name files))).

(** Lines 33-34: the output filename. *)
Definition resolve_output (model_name : string) (output_name : option string) : string :=
  match output_name with
  | None => PyStr.replace model_name ".pt" ".onnx"
  | Some o => o
  end.

(** Swapping only the final extension, [model_name[:-3] + '.onnx'],
    to compare [resolve_output] with. *)
Definition swap_final_extension (model_name : string) : string :=
  PyStr.take (String.length model_name - 3) model_name +:+ ".onnx".

Definition success_line (output_name : string) : string :=
  nl +:+ "✓ Success! ONNX model created: " +:+ output_name.

(** Lines 17-63. *)
Definition convert_model (w : world) (model_name : string)
    (output_name : option string) : M bool :=
  print ("Loading YOLOv8 model: " +:+ model_name) ;;
  print "Note: This will download the model if it's not already cached." ;;
  try_except
    (call_fs (YOLO_new model_name) (YOLO w model_name) ;;
     let output_name := resolve_output model_name output_name in
     print (nl +:+ "Converting to ONNX format...") ;;
     print ("Output file: " +:+ output_name) ;;
     call_fs (YOLO_export "onnx" 640 11) (export w model_name) ;;
     created <- path_exists output_name ;;
     if created then
       file_size <- getsize output_name ;;
       print (success_line output_name) ;;
       print ("  File size: " +:+ mb_text w file_size +:+ " MB") ;;
       print (nl +:+ "Next steps:") ;;
       print ("  1. Copy '" +:+ output_name +:+ "' to your qt-brbooth/models/ directory") ;;
       print "  2. Ensure it's named 'yolov8n-seg.onnx' (or update the path in code)" ;;
       ret true
     else
       print (nl +:+ "✗ Error: Output file " +:+ output_name +:+ " was not created") ;;
       ret false)
    [ (ImportError, fun _ =>
         print (nl +:+ "✗ Error: ultralytics package not found!") ;;
         print "Please install it with: pip install ultralytics" ;;
         ret false);
      (Exception, fun e =>
         print (nl +:+ "✗ Error during conversion: " +:+ exc_msg e) ;;
         ret false) ].

Definition default_model : string := "yolov8n-seg.pt".

(** Lines 83-84: the name-normalization step. *)
Definition normalize (model_name : string) : string :=
  if negb (PyStr.endswith model_name ".pt") then model_name +:+ ".pt"
  else model_name.

(** Lines 78-84: the model name chosen from [sys.argv]. *)
Definition model_name_of (argv : list string) : string :=
  match argv with
  | _ :: arg :: _ => normalize arg
  | _ => default_model
  end.

Definition banner : M unit :=
  print (str_mul "=" 60) ;;
  print "YOLOv8-seg Model Converter" ;;
  print (str_mul "=" 60) ;;
  print (nl +:+ "Available models:") ;;
  print "  - yolov8n-seg.pt  (nano - smallest, fastest)" ;;
  print "  - yolov8s-seg.pt  (small - balanced)" ;;
  print "  - yolov8m-seg.pt  (medium - better accuracy)" ;;
  print "  - yolov8l-seg.pt  (large - high accuracy)" ;;
  print "  - yolov8x-seg.pt  (extra large - highest accuracy)" ;;
  print (nl +:+ str_mul "=" 60).

(** Lines 66-87: what the main block prints before it converts. *)
Definition announce (model_name : string) : M unit :=
  banner ;;
  print (nl +:+ "Converting: " +:+ model_name) ;;
  print ("(This may take a few minutes on first run as it downloads the model)" +:+ nl).

(** Lines 65-91, [convert_model] always called with one argument. *)
Definition main (w : world) (argv : list string) : M unit :=
  let model_name := model_name_of argv in
  announce model_name ;;
  success <- convert_model w model_name None ;;
  sys_exit (if success then 0 else 1)%Z.

(** The whole file: the import of line 13, then the main block. *)
Definition script (w : world) (argv : list string) : M unit :=
  import_ (imports w) ultralytics ;;
  main w argv.

End Yolo.

(* ===================================================================== *)
(** ** download_tflite_model.py: the mobile-segmentation converter *)
(* ===================================================================== *)

Module Tflite.

(** A model held in memory: what [hub.load] returned (with or without a
    [signatures] attribute), or a Keras network given by its layers in
    order. *)
Inductive model :=
| HubModel (id : nat) (has_signatures : bool)
| KerasModel (layers : list layer).

Inductive converter_source :=
| FromConcreteFunctions (m : model)
| FromKerasModel (m : model).

Inductive optimize := DEFAULT.
Inductive dtype := float32.

(** A [TFLiteConverter] with the two attributes the script sets. *)
Record converter := Converter {
  source : converter_source;
  optimizations : list optimize;
  supported_types : list dtype
}.

(** tensorflow and tensorflow_hub as the script sees them.  Each field
    is the outcome of one call or of one attribute.  [hub_load] reads
    and writes files (the registry keeps what it downloads in a cache on
    disk, and loads from there when it can); the other calls work in
    memory.  [interpreter_details] stands for lines 136-141 (the
    interpreter is created on the file's content and gives the texts of
    the input and output details), [interpreter_run] for lines 147-157
    (it gives the text of the output shape). *)
Record world := World {
  imports : pymodule -> option exc;
  tf_version : result string;
  hub_version : result string;
  hub_load : string -> fsT -> result model * fsT;
  keras_Input : result unit;
  keras_layer : layer -> result unit;
  keras_Model : list layer -> result unit;
  signatures_getitem : model -> string -> result unit;
  from_concrete_functions : model -> result unit;
  from_keras_model : model -> result unit;
  convert : converter -> result bytes;
  interpreter_details : option node -> result (string * string);
  interpreter_run : option node -> result string
}.

Definition hub_url : string := "https://tfhub.dev/tensorflow/deeplabv3/1".

(** Lines 36-55. *)
Definition simple_layers : list layer :=
  [ Conv2D 64 3 relu true; Conv2D 64 3 relu true; MaxPooling2D 2;
    Conv2D 128 3 relu true; Conv2D 128 3 relu true; MaxPooling2D 2;
    Conv2DTranspose 64 3 2 relu true; Conv2D 64 3 relu true;
    Conv2DTranspose 32 3 2 relu true; Conv2D 32 3 relu true;
    Conv2D 21 1 softmax false ].

(** Lines 77-84. *)
Definition minimal_layers : list layer :=
  [ Conv2D 32 3 relu true; Conv2D 32 3 relu true;
    Conv2D 2 1 softmax false ].

(** The number of classes a network puts out: the filters of its last
    layer when that is a convolution. *)
Definition output_classes (m : model) : option nat :=
  match m with
  | KerasModel ls =>
      match last ls with
      | Some (Conv2D n _ _ _) => Some n
      | Some (Conv2DTranspose n _ _ _ _) => Some n
      | _ => None
      end
  | HubModel _ _ => None
  end.

Fixpoint apply_layers (w : world) (ls : list layer) : M unit :=
  match ls with
  | [] => ret tt
  | l :: rest => call (Keras_layer l) (keras_layer w l) ;; apply_layers w rest
  end.

(** What [apply_layers] comes to: the first exception of a layer, and
    the calls made up to it. *)
Fixpoint layers_result (w : world) (ls : list layer) : option exc :=
  match ls with
  | [] => None
  | l :: rest =>
      match keras_layer w l with
      | Ok _ => layers_result w rest
      | Err e => Some e
      end
  end.

Fixpoint layer_events (w : world) (ls : list layer) : list event :=
  match ls with
  | [] => []
  | l :: rest =>
      Call (Keras_layer l)
      :: match keras_layer w l with
         | Ok _ => layer_events w rest
         | Err _ => []
         end
  end.

(** [tf.keras.Input], the layers one after the other, [tf.keras.Model]. *)
Definition build_keras (w : world) (ls : list layer) : M model :=
  call Keras_Input (keras_Input w) ;;
  apply_layers w ls ;;
  call Keras_Model (keras_Model w ls) ;;
  ret (KerasModel ls).

(** The three attempts: the bodies of the [try] blocks of lines 14-21,
    31-62 and 73-88. *)
Definition attempt_hub (w : world) : M model :=
  import_ (imports w) tensorflow ;;
  import_ (imports w) tensorflow_hub ;;
  model <- call_fs (Hub_load hub_url) (hub_load w hub_url) ;;
  print "Model downloaded successfully!" ;;
  ret model.

Definition attempt_simple (w : world) : M model :=
  import_ (imports w) tensorflow ;;
  model <- build_keras w simple_layers ;;
  print "Simple segmentation model created successfully!" ;;
  ret model.

Definition attempt_minimal (w : world) : M model :=
  import_ (imports w) tensorflow ;;
  model <- build_keras w minimal_layers ;;
  print "Minimal segmentation model created successfully!" ;;
  ret model.

(** Lines 69-92; [None] is Python's [None]. *)
Definition create_minimal_model (w : world) : M (option model) :=
  print "Creating minimal segmentation model..." ;;
  try_except
    (model <- attempt_minimal w ;; ret (Some model))
    [ (Exception, fun e =>
         print ("Error creating minimal model: " +:+ exc_msg e) ;;
         ret None) ].

(** Lines 27-67. *)
Definition create_simple_segmentation_model (w : world) : M (option model) :=
  print "Creating simple segmentation model as fallback..." ;;
  try_except
    (model <- attempt_simple w ;; ret (Some model))
    [ (Exception, fun e =>
         print ("Error creating fallback model: " +:+ exc_msg e) ;;
         print "Trying even simpler approach..." ;;
         create_minimal_model w) ].

(** Lines 10-25. *)
Definition download_deeplabv3_model (w : world) : M (option model) :=
  print "Downloading DeepLabv3 model from TensorFlow Hub..." ;;
  try_except
    (model <- attempt_hub w ;; ret (Some model))
    [ (Exception, fun e =>
         print ("Error downloading model: " +:+ exc_msg e) ;;
         print "Trying alternative approach with direct model creation..." ;;
         create_simple_segmentation_model w) ].

(** [hasattr(model, 'signatures')] *)
Definition has_signatures (m : model) : bool :=
  match m with
  | HubModel _ b => b
  | KerasModel _ => false
  end.

(** The converter on which line 115 calls [convert()]. *)
Definition converter_for (m : model) : converter :=
  Converter (if has_signatures m then FromConcreteFunctions m else FromKerasModel m)
            [DEFAULT] [float32].

(** Lines 99-115: from the import up to and with [converter.convert()]. *)
Definition make_tflite (w : world) (m : model) : M bytes :=
  import_ (imports w) tensorflow ;;
  converter <-
    (if has_signatures m then
       call (Signatures_getitem "serving_default")
            (signatures_getitem w m "serving_default") ;;
       call From_concrete_functions (from_concrete_functions w m) ;;
       ret (Converter (FromConcreteFunctions m) [] [])
     else
       call From_keras_model (from_keras_model w m) ;;
       ret (Converter (FromKerasModel m) [] [])) ;;
  let converter := Converter (source converter) [DEFAULT] (supported_types converter) in
  let converter := Converter (source converter) (optimizations converter) [float32] in
  call Converter_convert (convert w converter).

(** Lines 94-126. *)
Definition convert_to_tflite (w : world) (m : model) (output_path : string) : M bool :=
  print "Converting model to TensorFlow Lite format..." ;;
  try_except
    (tflite_model <- make_tflite w m ;;
     open_wb output_path ;;
     write output_path tflite_model ;;
     print ("Model saved to: " +:+ output_path) ;;
     ret true)
    [ (Exception, fun e =>
         print ("Error converting model: " +:+ exc_msg e) ;;
         ret false) ].

(** [Interpreter(model_path=...)] reads the file at the time of the call. *)
Definition read_node (p : string) : M (option node) :=
  fun s => (Ret (fs s !! p), s).

(** Lines 128-165. *)
Definition test_model (w : world) (model_path : string) : M bool :=
  print "Testing converted model..." ;;
  try_except
    (import_ (imports w) tensorflow ;;
     content <- read_node model_path ;;
     details <- call (Interpreter_open model_path) (interpreter_details w content) ;;
     print ("Input details: " +:+ fst details) ;;
     print ("Output details: " +:+ snd details) ;;
     shape <- call Interpreter_invoke (interpreter_run w content) ;;
     print ("Output shape: " +:+ shape) ;;
     print "Model test successful!" ;;
     ret true)
    [ (Exception, fun e =>
         print ("Error testing model: " +:+ exc_msg e) ;;
         ret false) ].

Definition output_path : string := "deeplabv3.tflite".

(** Lines 172-189: [true] when execution goes on after the check. *)
Definition check_tensorflow (w : world) : M bool :=
  try_except
    (import_ (imports w) tensorflow ;;
     version <- attribute (tf_version w) ;;
     print ("TensorFlow version: " +:+ version) ;;
     try_except
       (import_ (imports w) tensorflow_hub ;;
        version <- attribute (hub_version w) ;;
        print ("TensorFlow Hub version: " +:+ version))
       [ (Exception, fun hub_error =>
            print ("Warning: TensorFlow Hub import failed: " +:+ exc_msg hub_error) ;;
            print "Will use fallback model creation approach...") ] ;;
     ret true)
    [ (ImportError, fun e =>
         print ("Error: " +:+ exc_msg e) ;;
         print "Please install required packages:" ;;
         print "pip install tensorflow tensorflow-hub" ;;
         ret false) ].

(** Lines 167-213. *)
Definition main (w : world) : M bool :=
  print "TensorFlow Lite DeepLabv3 Model Converter" ;;
  print (str_mul "=" 40) ;;
  go_on <- check_tensorflow w ;;
  if negb go_on then ret false else
  model <- download_deeplabv3_model w ;;
  match model with
  | None => ret false
  | Some model =>
      converted <- convert_to_tflite w model output_path ;;
      if negb converted then ret false else
      tested <- test_model w output_path ;;
      if negb tested then ret false else
      print (nl +:+ str_mul "=" 40) ;;
      print "SUCCESS! Model conversion completed." ;;
      print ("Model file: " +:+ output_path) ;;
      print (nl +:+ "Next steps:") ;;
      print "1. Copy the .tflite file to your Qt project directory" ;;
      print "2. Use the 'Load Model' button in the TFLite Segmentation tab" ;;
      print "3. Select your camera and start segmentation" ;;
      ret true
  end.

(** The whole file: the import of line 8, then lines 215-217. *)
Definition script (w : world) : M unit :=
  import_ (imports w) numpy ;;
  success <- main w ;;
  sys_exit (if success then 0 else 1)%Z.

End Tflite.

(* ===================================================================== *)
(** ** tools/build_trt_engine.py: the engine builder *)
(* ===================================================================== *)

Module Trt.

(** tensorrt as the script sees it.  [parse data] is
    [parser.parse(data)], [parse_errors data] the texts of
    [parser.get_error(i)] for [i] below [parser.num_errors] after that
    call, [build_serialized_network data] the engine built from the
    network parsed from [data], [None] for Python's [None].
    [EXPLICIT_BATCH] is [int(trt.NetworkDefinitionCreationFlag.EXPLICIT_BATCH)]. *)
Record world := World {
  imports : pymodule -> option exc;
  EXPLICIT_BATCH : Z;
  Logger : result unit;
  Builder : result unit;
  create_network : Z -> result unit;
  OnnxParser : result unit;
  parse : bytes -> result bool;
  parse_errors : bytes -> list string;
  create_builder_config : result unit;
  set_memory_pool_limit : Z -> result unit;
  set_flag : result unit;
  build_serialized_network : bytes -> result (option bytes)
}.

(** Lines 18-19. *)
Fixpoint print_errors (i : nat) (errors : list string) : M unit :=
  match errors with
  | [] => ret tt
  | e :: rest =>
      log (Call (Trt_get_error i)) ;;
      print e ;;
      print_errors (S i) rest
  end.

(** Lines 7-40. *)
Definition build_engine (w : world) (onnx_path engine_path : string) : M bool :=
  call Trt_Logger (Logger w) ;;
  call Trt_Builder (Builder w) ;;
  let flags := Z.shiftl 1 (EXPLICIT_BATCH w) in
  call (Trt_create_network flags) (create_network w flags) ;;
  call Trt_OnnxParser (OnnxParser w) ;;
  print ("Loading ONNX file: " +:+ onnx_path) ;;
  data <- open_rb_read onnx_path ;;
  parsed <- call Trt_parse (parse w data) ;;
  if negb parsed then
    print_errors 0 (parse_errors w data) ;;
    ret false
  else
  call Trt_create_builder_config (create_builder_config w) ;;
  let limit := Z.shiftl 4 30 in
  call (Trt_set_memory_pool_limit limit) (set_memory_pool_limit w limit) ;;
  call Trt_set_flag_FP16 (set_flag w) ;;
  print "Building TensorRT engine (this may take a few minutes)..." ;;
  serialized_engine <- call Trt_build_serialized_network (build_serialized_network w data) ;;
  match serialized_engine with
  | None =>
      print "Failed to build engine" ;;
      ret false
  | Some engine =>
      open_wb engine_path ;;
      write engine_path engine ;;
      print ("Engine saved to: " +:+ engine_path) ;;
      ret true
  end.

Definition onnx_file : string := "models/yolov8n.onnx".
Definition engine_file : string := "models/yolov8n_fp16.engine".

(** Lines 42-51. *)
Definition main (w : world) : M unit :=
  found <- path_exists onnx_file ;;
  if negb found then
    print ("Error: " +:+ onnx_file +:+ " not found!") ;;
    sys_exit 1%Z
  else
  success <- build_engine w onnx_file engine_file ;;
  sys_exit (if success then 0 else 1)%Z.

(** The whole file: the import of line 3, then the main block. *)
Definition script (w : world) : M unit :=
  import_ (imports w) tensorrt ;;
  main w.

End Trt.

(* ===================================================================== *)
(** ** pathlib and argparse, as far as the landmark exporter uses them *)
(* ===================================================================== *)

Module PyPath.

(** A path is the list of its parts, as [PurePosixPath.parts] gives
    them: an absolute path starts with its root, the part ["/"] or,
    for a text that starts with exactly two slashes, the part ["//"]. *)
Definition path := list string.

Definition is_root (part : string) : bool :=
  String.eqb part "/" || String.eqb part "//".

Definition slash : ascii := ascii_of_nat 47.

Fixpoint split (sep : ascii) (s : string) : list string :=
  match s with
  | EmptyString => [EmptyString]
  | String c s' =>
      if Ascii.eqb c sep then EmptyString :: split sep s'
      else match split sep s' with
           | [] => [String c EmptyString]
           | h :: t => String c h :: t
           end
  end.

Definition is_part (p : string) : bool :=
  negb (String.eqb p "") && negb (String.eqb p ".").

(** The root of a text: two slashes at the start are kept apart, three
    or more are one. *)
Definition root_of (s : string) : path :=
  if PyStr.startswith s "//" && negb (PyStr.startswith s "///") then ["//"]
  else if PyStr.startswith s "/" then ["/"]
  else [].

(** [Path(s)]: empty parts and ["."] parts are dropped. *)
Definition of_string (s : string) : path :=
  root_of s ++ List.filter is_part (split slash s).

(** [str(p)] *)
Definition to_string (p : path) : string :=
  match p with
  | [] => "."
  | r :: rest => if is_root r then r +:+ PyStr.join "/" rest else PyStr.join "/" p
  end.

(** [p.parent]; a root is its own parent. *)
Definition parent (p : path) : path :=
  match p with
  | [r] => if is_root r then p else []
  | _ => removelast p
  end.

(** [p / name] *)
Definition div (p : path) (name : string) : path :=
  if PyStr.startswith name "/" then of_string name
  else p ++ of_string name.

(** One step of [mkdir(parents=True, exist_ok=True)]: the directory
    [done ++ [part]] is kept when it is there, made when it is not; a
    file in its place is an error. *)
Definition mkdir_one (d : path) (is_last : bool) : M unit :=
  fun s =>
    match fs s !! to_string d with
    | Some Dir => (Ret tt, s)
    | Some (File _) =>
        (Raise (Exc (if is_last then FileExistsError else NotADirectoryError)
                    (to_string d)), s)
    | None => (Ret tt, State (<[to_string d := Dir]> (fs s)) (trace s))
    end.

Fixpoint mkdir_chain (done : path) (todo : list string) : M unit :=
  match todo with
  | [] => ret tt
  | part :: rest =>
      mkdir_one (done ++ [part]) (match rest with [] => true | _ => false end) ;;
      mkdir_chain (done ++ [part]) rest
  end.

(** [p.mkdir(parents=True, exist_ok=True)]; the working directory and
    the roots are always there. *)
Definition mkdir_parents (p : path) : M unit :=
  log (Mkdir (to_string p)) ;;
  match p with
  | r :: rest => if is_root r then mkdir_chain [r] rest else mkdir_chain [] p
  | [] => mkdir_chain [] []
  end.

End PyPath.

Module Argparse.

(** What [parser.parse_args()] does for the parser of lines 36-38: it
    returns the namespace ([--output] as a path, [--model] as a
    string), or prints the help and exits with status 0, or prints the
    usage with an error and exits with status 2.  In [ParsedEmpty] the
    namespace holds Python's empty list for at least one of the two
    arguments, [None] here: CPython 3.11 stores it for an option that is
    written with [=--]. *)
Inductive parse_outcome :=
| Parsed (output : PyPath.path) (model : string)
| ParsedEmpty (output : option PyPath.path) (model : option string)
| HelpExit
| UsageError (msg : string).

Inductive opt := OptHelp | OptOutput | OptModel.

Definition long_options : list (string * opt) :=
  [("--help", OptHelp); ("--output", OptOutput); ("--model", OptModel)].

(** The text before the first ["="] and, when there is one, the text
    after it. *)
Fixpoint split_eq (s : string) : string * option string :=
  match s with
  | EmptyString => (EmptyString, None)
  | String c s' =>
      if Ascii.eqb c "="%char then (EmptyString, Some s')
      else let (n, v) := split_eq s' in (String c n, v)
  end.

Definition is_digit (c : ascii) : bool :=
  (48 <=? nat_of_ascii c) && (nat_of_ascii c <=? 57).

Fixpoint all_digits (s : string) : bool :=
  match s with
  | EmptyString => true
  | String c s' => is_digit c && all_digits s'
  end.

Fixpoint all_h (s : string) : bool :=
  match s with
  | EmptyString => true
  | String c s' => Ascii.eqb c "h"%char && all_h s'
  end.

(** [-\d+] or [-\d*\.\d+] *)
Definition negative_number (s : string) : bool :=
  match s with
  | String "-" rest =>
      match PyPath.split "."%char rest with
      | [a] => negb (String.eqb a "") && all_digits a
      | [a; b] => all_digits a && negb (String.eqb b "") && all_digits b
      | _ => false
      end
  | _ => false
  end.

(** How argparse reads one token: as a value, as one of the options
    (with the value given after ["="], if any), as [-h] with further
    letters, as an option it does not know, or as a prefix of several
    options. *)
Inductive token :=
| Value
| Option_ (o : opt) (explicit : option string)
| ShortHelp (more : string)
| Unknown
| Ambiguous.

Definition classify (a : string) : token :=
  match a with
  | EmptyString => Value
  | String "-" EmptyString => Value
  | String "-" (String "h" more) =>
      match more with
      | EmptyString => Option_ OptHelp None
      | _ => ShortHelp more
      end
  | String "-" (String "-" _) =>
      let (name, explicit) := split_eq a in
      match List.filter (fun o => String.prefix name (fst o)) long_options with
      | [(_, o)] => Option_ o explicit
      | _ :: _ :: _ =>
          match List.filter (fun o => String.eqb name (fst o)) long_options with
          | [(_, o)] => Option_ o explicit
          | _ => Ambiguous
          end
      | [] => if negative_number a || PyStr.contains " " a then Value else Unknown
      end
  | String "-" _ =>
      if negative_number a || PyStr.contains " " a then Value else Unknown
  | _ => Value
  end.

Definition is_value (a : string) : bool :=
  match classify a with
  | Value => true
  | _ => false
  end.

(** What is stored so far.  [p_output] is [None] until [--output] is
    given; a stored value is a text, or [None] for the empty list. *)
Record partial := Partial {
  p_output : option (option string);
  p_model : option string;
  p_extras : bool
}.

Definition with_extras (acc : partial) (more : bool) : partial :=
  Partial (p_output acc) (p_model acc) (p_extras acc || more).

(** The end of the command line: the required option, then the tokens
    left over. *)
Definition finish (acc : partial) : parse_outcome :=
  match p_output acc with
  | None => UsageError "the following arguments are required: --output"
  | Some stored =>
      if p_extras acc then UsageError "unrecognized arguments"
      else
        match stored, p_model acc with
        | Some o, Some m => Parsed (PyPath.of_string o) m
        | _, _ => ParsedEmpty (option_map PyPath.of_string stored) (p_model acc)
        end
  end.

(** [--output] takes its value as it is; [--model] takes one of
    [choices].  The value [--], which can only come after [=], is
    dropped from the values of the option: the empty list is stored,
    with no conversion and no check against the choices. *)
Definition store (choices : list string) (o : opt) (v : string) (acc : partial)
    (k : partial -> parse_outcome) : parse_outcome :=
  match o with
  | OptModel =>
      if String.eqb v "--" then k (Partial (p_output acc) None (p_extras acc))
      else if existsb (String.eqb v) choices
      then k (Partial (p_output acc) (Some v) (p_extras acc))
      else UsageError "argument --model: invalid choice"
  | _ =>
      k (Partial (Some (if String.eqb v "--" then None else Some v))
                 (p_model acc) (p_extras acc))
  end.

(** The tokens from left to right, as CPython 3.11 reads them for this
    parser.  Values and unknown options that no option takes are left
    over, which is an error at the end.  The token [--] and every token
    after it are left over too, since the parser has no positional
    argument to give them to; and [--] is never taken as the value of an
    option. *)
Fixpoint parse_tokens (choices : list string) (args : list string)
    (acc : partial) : parse_outcome :=
  match args with
  | [] => finish acc
  | a :: rest =>
      if String.eqb a "--" then finish (with_extras acc true)
      else
        match classify a with
        | Value | Unknown => parse_tokens choices rest (with_extras acc true)
        | Ambiguous => UsageError "ambiguous option"
        | ShortHelp more =>
            if all_h more then HelpExit
            else UsageError "ignored explicit argument"
        | Option_ OptHelp None => HelpExit
        | Option_ OptHelp (Some _) => UsageError "ignored explicit argument"
        | Option_ o (Some v) => store choices o v acc (parse_tokens choices rest)
        | Option_ o None =>
            match rest with
            | [] => UsageError "expected one argument"
            | v :: rest' =>
                if String.eqb v "--" then UsageError "expected one argument"
                else if is_value v then store choices o v acc (parse_tokens choices rest')
                else UsageError "expected one argument"
            end
        end
  end.

(** Before it takes any option the parser reads every token up to the
    first [--], and gives up at one that abbreviates several options. *)
Fixpoint ambiguous (args : list string) : bool :=
  match args with
  | [] => false
  | a :: rest =>
      if String.eqb a "--" then false
      else
        match classify a with
        | Ambiguous => true
        | _ => ambiguous rest
        end
  end.

Definition parse_args (choices : list string) (default_model : string)
    (args : list string) : parse_outcome :=
  if ambiguous args then UsageError "ambiguous option"
  else parse_tokens choices args (Partial None (Some default_model) false).

End Argparse.

(* ===================================================================== *)
(** ** tools/export_mediapipe_hands.py: the landmark-model exporter *)
(* ===================================================================== *)

Module Hands.

(** mediapipe, tflite2onnx and argparse as the script sees them.
    [PACKAGE_DIR] is [Path(mp.__file__).resolve().parent];
    [convert src dst] is tflite2onnx's [convert], which writes files;
    [parse_args args] is [parser.parse_args()] on [sys.argv[1:]]. *)
Record world := World {
  imports : pymodule -> option exc;
  PACKAGE_DIR : PyPath.path;
  parse_args : list string -> Argparse.parse_outcome;
  convert : string -> string -> fsT -> result unit * fsT
}.

(** Line 13. *)
Definition MODEL_DIR (w : world) : PyPath.path :=
  PyPath.div (PyPath.div (PACKAGE_DIR w) "modules") "hand_landmark".

(** Lines 15-18; a dict keeps the order of insertion. *)
Definition MODEL_FILES : list (string * string) :=
  [ ("lite", "hand_landmark_lite.tflite");
    ("full", "hand_landmark_full.tflite") ].

Definition keys {V} (d : list (string * V)) : list string := map fst d.

(** [d[k]] *)
Fixpoint getitem {V} (d : list (string * V)) (k : string) : M V :=
  match d with
  | [] => raise (Exc KeyError k)
  | (k', v) :: rest => if String.eqb k' k then ret v else getitem rest k
  end.

(** Lines 21-32. *)
Definition export_hand_landmark (w : world) (output_path : PyPath.path)
    (model_type : string) : M unit :=
  model_name <-
    try_except
      (getitem MODEL_FILES model_type)
      [ (KeyError, fun _ =>
           raise (Exc ValueError
                      ("model_type must be one of: "
                       +:+ PyStr.join ", " (keys MODEL_FILES)))) ] ;;
  let tflite_path := PyPath.div (MODEL_DIR w) model_name in
  found <- path_exists (PyPath.to_string tflite_path) ;;
  if negb found then
    raise (Exc FileNotFoundError
               ("Could not locate " +:+ PyPath.to_string tflite_path))
  else
  PyPath.mkdir_parents (PyPath.parent output_path) ;;
  let src := PyPath.to_string tflite_path in
  let dst := PyPath.to_string output_path in
  call_fs (T2O_convert src dst) (convert w src dst).

(** Lines 21-32 when an argument is the empty list, which is neither a
    text nor a path.  A list for [model_type] cannot be the key of a
    dict: the subscript of line 23 raises [TypeError], which line 24
    does not handle.  A list for [output_path] has no attribute
    [parent]: lines 22-29 run as they are written, then line 31 raises
    [AttributeError]. *)
Definition export_empty_list (w : world) (model_type : option string) : M unit :=
  match model_type with
  | None => raise (Exc TypeError "unhashable type: 'list'")
  | Some model_type =>
      model_name <-
        try_except
          (getitem MODEL_FILES model_type)
          [ (KeyError, fun _ =>
               raise (Exc ValueError
                          ("model_type must be one of: "
                           +:+ PyStr.join ", " (keys MODEL_FILES)))) ] ;;
      let tflite_path := PyPath.div (MODEL_DIR w) model_name in
      found <- path_exists (PyPath.to_string tflite_path) ;;
      if negb found then
        raise (Exc FileNotFoundError
                   ("Could not locate " +:+ PyPath.to_string tflite_path))
      else
      raise (Exc AttributeError "'list' object has no attribute 'parent'")
  end.

(** Lines 35-41. *)
Definition main (w : world) (argv : list string) : M unit :=
  match parse_args w (tail argv) with
  | Argparse.Parsed output model => export_hand_landmark w output model
  | Argparse.ParsedEmpty _ model => export_empty_list w model
  | Argparse.HelpExit => log ArgparseHelp ;; sys_exit 0%Z
  | Argparse.UsageError msg => log (ArgparseError msg) ;; sys_exit 2%Z
  end.

(** The whole file: the imports of lines 8-9, then the main block. *)
Definition script (w : world) (argv : list string) : M unit :=
  import_ (imports w) mediapipe ;;
  import_ (imports w) tflite2onnx ;;
  main w argv.

(** argparse with the arguments of lines 37-38. *)
Definition argparse_args : list string -> Argparse.parse_outcome :=
  Argparse.parse_args (keys MODEL_FILES) "full".

End Hands.

(* ===================================================================== *)
(** ** Which dependency each script needs *)
(* ===================================================================== *)

(** The import of [m] fails because the package is not installed. *)
Definition absent (imports : pymodule -> option exc) (m : pymodule) : Prop :=
  exists msg, imports m = Some (Exc ModuleNotFoundError msg).

Definition install_hint (line : string) : bool := PyStr.contains "pip install" line.

(** Some printed line holds an install instruction. *)
Definition prints_install_hint (s : state) : Prop :=
  exists line, printed line s /\ install_hint line = true.

Definition is_unhandled (t : termination) : bool :=
  match t with
  | Unhandled _ => true
  | _ => false
  end.

(** What the specification asks of a run with the dependency missing:
    status 1, an install instruction on the output, no exception left
    unhandled. *)
Definition reports_missing_dependency (run : termination * state) : Prop :=
  exit_status (fst run) = 1%Z
  /\ prints_install_hint (snd run)
  /\ is_unhandled (fst run) = false.

Definition is_call (ev : event) : bool :=
  match ev with
  | Call _ => true
  | _ => false
  end.

Definition is_file_op (ev : event) : bool :=
  match ev with
  | OpenRead _ | OpenWrite _ | Mkdir _ => true
  | _ => false
  end.

Definition start (files : fsT) : state := State files [].

(* ===================================================================== *)
(** ** Concrete installations, for the runs the theorems are checked on *)
(* ===================================================================== *)

Module Examples.

Definition all_installed : pymodule -> option exc := fun _ => None.

Definition missing (m : pymodule) (name : string) : pymodule -> option exc :=
  fun m' =>
    match m, m' with
    | numpy, numpy | ultralytics, ultralytics | tensorflow, tensorflow
    | tensorflow_hub, tensorflow_hub | tensorrt, tensorrt
    | mediapipe, mediapipe | tflite2onnx, tflite2onnx =>
        Some (Exc ModuleNotFoundError ("No module named '" +:+ name +:+ "'"))
    | _, _ => None
    end.

Definition some_bytes : bytes := [Byte.x4f; Byte.x4e; Byte.x4e; Byte.x58].

(** ultralytics installed; the export writes the file next to the
    checkpoint, under the checkpoint's name with the suffix swapped. *)
Definition yolo_ok : Yolo.world :=
  Yolo.World all_installed
    (fun name files => (Ok tt, <[name := File some_bytes]> files))
    (fun name files =>
       (Ok tt, <[Yolo.swap_final_extension name := File some_bytes]> files))
    (fun _ => "0.00").

(** The export returns without leaving a file. *)
Definition yolo_no_output : Yolo.world :=
  Yolo.World all_installed
    (fun name files => (Ok tt, <[name := File some_bytes]> files))
    (fun _ files => (Ok tt, files))
    (fun _ => "0.00").

Definition yolo_absent : Yolo.world :=
  Yolo.World (missing ultralytics "ultralytics")
    (fun _ files => (Ok tt, files)) (fun _ files => (Ok tt, files))
    (fun _ => "0.00").

Definition is_wide (l : layer) : bool :=
  match l with
  | Conv2D n _ _ _ => 64 <=? n
  | Conv2DTranspose n _ _ _ _ => 64 <=? n
  | MaxPooling2D _ => false
  end.

(** Where the registry of the example installations keeps the model
    it has downloaded. *)
Definition hub_cache : string := "/tmp/tfhub_modules/deeplabv3.pb".

(** tensorflow installed; [imports_] says what else is; the registry
    can be reached, and then keeps the download in its cache, when
    [hub_reachable] is set; layers of 64 filters or more exhaust the
    memory when [small_memory] is set. *)
Definition tflite_world (imports_ : pymodule -> option exc)
    (hub_reachable small_memory converts : bool) : Tflite.world :=
  Tflite.World imports_ (Ok "2.15.0") (Ok "0.16.1")
    (fun _ files =>
       if hub_reachable
       then (Ok (Tflite.HubModel 1 true), <[hub_cache := File some_bytes]> files)
       else (Err (Exc OSError "URL fetch failure"), files))
    (Ok tt)
    (fun l => if small_memory && is_wide l
              then Err (Exc RuntimeError "OOM when allocating tensor")
              else Ok tt)
    (fun _ => Ok tt)
    (fun _ _ => Ok tt)
    (fun _ => Ok tt)
    (fun _ => Ok tt)
    (fun _ => if converts then Ok some_bytes
              else Err (Exc RuntimeError "conversion failed"))
    (fun content =>
       match content with
       | Some (File (_ :: _)) => Ok ("[input]", "[output]")
       | _ => Err (Exc ValueError "Could not open model")
       end)
    (fun _ => Ok "(1, 1, 1, 2)").

Definition tflite_fallback : Tflite.world := tflite_world all_installed false true true.
Definition tflite_no_convert : Tflite.world := tflite_world all_installed true false false.
Definition tflite_ok : Tflite.world := tflite_world all_installed true false true.
Definition tflite_absent : Tflite.world :=
  tflite_world (missing tensorflow "tensorflow") false false false.

Definition trt_world (imports_ : pymodule -> option exc)
    (engine : option bytes) : Trt.world :=
  Trt.World imports_ 0 (Ok tt) (Ok tt) (fun _ => Ok tt) (Ok tt)
    (fun data => Ok (match data with [] => false | _ => true end))
    (fun _ => ["In node 0: empty model"])
    (Ok tt) (fun _ => Ok tt) (Ok tt)
    (fun _ => Ok engine).

Definition trt_ok : Trt.world := trt_world all_installed (Some some_bytes).
Definition trt_none : Trt.world := trt_world all_installed None.
Definition trt_absent : Trt.world := trt_world (missing tensorrt "tensorrt") None.

Definition site_packages : PyPath.path := ["/"; "usr"; "lib"; "python3"; "site-packages"; "mediapipe"].

Definition hands_world (imports_ : pymodule -> option exc) : Hands.world :=
  Hands.World imports_ site_packages Hands.argparse_args
    (fun src dst files =>
       match files !! src with
       | Some (File d) => (Ok tt, <[dst := File d]> files)
       | _ => (Err (Exc FileNotFoundError src), files)
       end).

Definition hands_ok : Hands.world := hands_world all_installed.
Definition hands_absent : Hands.world := hands_world (missing mediapipe "mediapipe").

(** A working directory with the directory [models], the ONNX file of
    the engine builder in it, and the two models bundled with
    mediapipe. *)
Definition disk : fsT :=
  <["models" := Dir]>
  (<["models/yolov8n.onnx" := File some_bytes]>
  (<["/usr/lib/python3/site-packages/mediapipe/modules/hand_landmark/hand_landmark_full.tflite" := File some_bytes]>
  (<["/usr/lib/python3/site-packages/mediapipe/modules/hand_landmark/hand_landmark_lite.tflite" := File some_bytes]>
   ∅))).

End Examples.

(* ===================================================================== *)
(** ** Outcomes of runs *)
(* ===================================================================== *)

Definition termination_of (r : outcome unit) : termination :=
  match r with
  | Ret _ => Completed
  | SysExit c => Exited c
  | Raise e => Unhandled e
  end.

(** [wp m Q s]: running [m] from [s] ends in an outcome and a state that
    satisfy [Q]. *)
Definition wp {A} (m : M A) (Q : outcome A -> state -> Prop) (s : state) : Prop :=
  Q (fst (m s)) (snd (m s)).

(** What [bind] and [try_except] do with the outcome of their first part. *)
Definition after_bind {A B} (k : A -> M B) (Q : outcome B -> state -> Prop)
  : outcome A -> state -> Prop :=
  fun r s =>
    match r with
    | Ret a => wp (k a) Q s
    | Raise e => Q (Raise e) s
    | SysExit c => Q (SysExit c) s
    end.

Definition after_try {A} (hs : list (exc_class * (exc -> M A)))
    (Q : outcome A -> state -> Prop) : outcome A -> state -> Prop :=
  fun r s =>
    match r with
    | Raise e =>
        match find_handler e hs with
        | Some h => wp (h e) Q s
        | None => Q (Raise e) s
        end
    | _ => Q r s
    end.

Definition logged (ev : event) (s : state) : state := State (fs s) (trace s ++ [ev]).

(** The events of lines 18-19 of the engine builder. *)
Fixpoint error_events (i : nat) (errors : list string) : list event :=
  match errors with
  | [] => []
  | e :: rest => Call (Trt_get_error i) :: Print e :: error_events (S i) rest
  end.

(** The computation raises, or returns [a], whatever the state it is
    started in. *)
Definition raises {A} (m : M A) : Prop :=
  forall s, exists e s', m s = (Raise e, s').

Definition returns {A} (m : M A) (a : A) : Prop :=
  forall s, exists s', m s = (Ret a, s').

(** The same for a computation that reads files: it raises, or returns
    [a], in every state whose files are [files]. *)
Definition raises_on {A} (m : M A) (files : fsT) : Prop :=
  forall s, fs s = files -> exists e s', m s = (Raise e, s').

Definition returns_on {A} (m : M A) (a : A) (files : fsT) : Prop :=
  forall s, fs s = files -> exists s', m s = (Ret a, s').

(** The computation never ends the process by [sys.exit]. *)
Definition no_exit {A} (m : M A) : Prop :=
  forall s c s', m s <> (SysExit c, s').

(** The exit status is one of [codes]. *)
Definition status_in (codes : list Z) (run : termination * state) : Prop :=
  In (exit_status (fst run)) codes.

Definition is_convert (ev : event) : bool :=
  match ev with
  | Call Converter_convert => true
  | _ => false
  end.

Definition is_open_write (ev : event) : bool :=
  match ev with
  | OpenWrite _ => true
  | _ => false
  end.

(** Every event that satisfies [Q] comes after one that satisfies [P];
    [seen] tells whether one came already. *)
Fixpoint preceded_by (P Q : event -> bool) (seen : bool) (l : list event) : bool :=
  match l with
  | [] => true
  | ev :: rest => (negb (Q ev) || seen) && preceded_by P Q (seen || P ev) rest
  end.

(** What the specification asks of the exit status: 0 or 1. *)
Definition exits_zero_or_one (run : termination * state) : Prop :=
  status_in [0%Z; 1%Z] run.

(** An event that is neither a library call nor a file operation. *)
Definition quiet (ev : event) : bool := negb (is_call ev || is_file_op ev).

(* ===================================================================== *)
(** ** Further outcomes: files, directories and the parts of [main] *)
(* ===================================================================== *)

(** The files the two library calls of [convert_model] leave. *)
Definition files_after_calls (w : Yolo.world) (model_name : string) (files : fsT) : fsT :=
  match Yolo.YOLO w model_name files with
  | (Ok _, files1) => snd (Yolo.export w model_name files1)
  | (Err _, files1) => files1
  end.

Module MoreExamples.

(** ultralytics is installed, but loading the model raises: a package
    the constructor needs is missing, or the weights cannot be read. *)
Definition yolo_raises (e : exc) : Yolo.world :=
  Yolo.World Examples.all_installed
    (fun _ files => (Err e, files))
    (fun _ files => (Ok tt, files))
    (fun _ => "0.00").

Definition no_onnx : exc := Exc ModuleNotFoundError "No module named 'onnx'".
Definition bad_weights : exc := Exc RuntimeError "invalid checkpoint".

(** tensorflow is installed but fails while it loads. *)
Definition broken_tensorflow : exc :=
  Exc RuntimeError "CPU does not support the instructions this build needs".
Definition tflite_broken : Tflite.world :=
  Examples.tflite_world
    (fun m => match m with
              | tensorflow => Some broken_tensorflow
              | _ => None
              end)
    true false true.

(** The builder returns an engine of no bytes; the export leaves a file
    of no bytes under the name the script looks for. *)
Definition trt_empty_engine : Trt.world :=
  Examples.trt_world Examples.all_installed (Some []).
Definition yolo_empty_output : Yolo.world :=
  Yolo.World Examples.all_installed
    (fun name files => (Ok tt, <[name := File Examples.some_bytes]> files))
    (fun name files => (Ok tt, <[Yolo.swap_final_extension name := File []]> files))
    (fun _ => "0.00").

(** [import tensorflow] finds a directory that is no package of
    tensorflow: the module has no [__version__]. *)
Definition no_version : exc :=
  Exc AttributeError "module 'tensorflow' has no attribute '__version__'".
Definition tflite_no_version : Tflite.world :=
  Tflite.World Examples.all_installed (Err no_version) (Ok "0.16.1")
    (fun _ files => (Err (Exc OSError "URL fetch failure"), files))
    (Ok tt) (fun _ => Ok tt) (fun _ => Ok tt) (fun _ _ => Ok tt)
    (fun _ => Ok tt) (fun _ => Ok tt) (fun _ => Ok Examples.some_bytes)
    (fun _ => Ok ("[input]", "[output]")) (fun _ => Ok "(1, 1, 1, 2)").
End MoreExamples.

(** The smoke test of [test_model] passes on [content]. *)
Definition test_passes (w : Tflite.world) (content : option node) : Prop :=
  Tflite.imports w tensorflow = None
  /\ (exists details, Tflite.interpreter_details w content = Ok details)
  /\ (exists shape, Tflite.interpreter_run w content = Ok shape).


(** The files [download_deeplabv3_model] leaves: its one call that
    touches files is the load from the registry, which is reached when
    the two imports of lines 15-16 succeed. *)
Definition files_after_download (w : Tflite.world) (files : fsT) : fsT :=
  match Tflite.imports w tensorflow, Tflite.imports w tensorflow_hub with
  | None, None => snd (Tflite.hub_load w Tflite.hub_url files)
  | _, _ => files
  end.

(** The files as [main] finds them when it converts: the download is
    reached when the check of lines 172-189 lets the run go on. *)
Definition files_after_registry (w : Tflite.world) (files : fsT) : fsT :=
  match Tflite.imports w tensorflow, Tflite.tf_version w with
  | None, Ok _ => files_after_download w files
  | _, _ => files
  end.

(** What a run of [Tflite.main] that began in [s] comes to, by its
    outcome: [True] with the converted bytes in the output file and the
    smoke test passed on them; [False] with no file written by the
    script, or with the converted bytes in place and the smoke test
    failed; an exception only from the first two lines of the check (the
    import of tensorflow or the reading of its version), when it is no
    [ImportError]. *)
Definition main_outcome (w : Tflite.world) (s : state) (r : outcome bool) (s' : state)
  : Prop :=
  let files := files_after_registry w (fs s) in
  match r with
  | Ret true =>
      exists m b,
        Tflite.convert w (Tflite.converter_for m) = Ok b
        /\ fs s' = <[Tflite.output_path := File b]> files
        /\ test_passes w (Some (File b))
        /\ printed "SUCCESS! Model conversion completed." s'
  | Ret false =>
      fs s' = files
      \/ exists m b,
           Tflite.convert w (Tflite.converter_for m) = Ok b
           /\ fs s' = <[Tflite.output_path := File b]> files
           /\ ~ test_passes w (Some (File b))
  | Raise e =>
      (Tflite.imports w tensorflow = Some e
       \/ Tflite.imports w tensorflow = None /\ Tflite.tf_version w = Err e)
      /\ isinstance e ImportError = false
      /\ fs s' = fs s
  | SysExit _ => False
  end.

(** From [before] to [after] every entry was kept as it was, and what
    is new is a directory. *)
Definition only_adds_directories (before after : fsT) : Prop :=
  (forall k n, before !! k = Some n -> after !! k = Some n)
  /\ (forall k n, after !! k = Some n -> before !! k = Some n \/ n = Dir).

(** The exceptions of [export_hand_landmark] itself and of the [mkdir]
    it calls. *)
Definition export_error_classes : list exc_class :=
  [ValueError; FileNotFoundError; FileExistsError; NotADirectoryError].

(** The model type in the namespace the parser returned, when there is
    one and it is a text. *)
Definition parsed_model (r : Argparse.parse_outcome) : option string :=
  match r with
  | Argparse.Parsed _ m => Some m
  | Argparse.ParsedEmpty _ m => m
  | _ => None
  end.

(** No call of the converter is recorded. *)
Definition converter_not_called (s : state) : Prop :=
  forall src dst, ~ In (Call (T2O_convert src dst)) (trace s).

(** What a [mkdir] that began in [s] comes to: the trace is as it was,
    directories were added at most, the directory asked for is there
    when it returns, and it raises nothing but the two errors of a file
    that is in the way. *)
Definition mkdir_outcome (target : option string) (s : state)
    (r : outcome unit) (s' : state) : Prop :=
  trace s' = trace s
  /\ only_adds_directories (fs s) (fs s')
  /\ match r with
     | Ret _ =>
         match target with
         | Some d => fs s' !! d = Some Dir
         | None => True
         end
     | Raise e => exc_cls e = FileExistsError \/ exc_cls e = NotADirectoryError
     | SysExit _ => False
     end.

(** What a run of [export_hand_landmark] that began in [s] comes to.
    When it returns, the model type was a key of [MODEL_FILES], the
    bundled file was there, the parent directory was made and the
    converter returned on the files as they were then.  When it raises,
    it did so before any effect, or in [mkdir], or in the converter. *)
Definition export_outcome (w : Hands.world) (output_path : PyPath.path)
    (model_type : string) (s : state) (r : outcome unit) (s' : state) : Prop :=
  let made := Mkdir (PyPath.to_string (PyPath.parent output_path)) in
  let dst := PyPath.to_string output_path in
  let src model_name := PyPath.to_string (PyPath.div (Hands.MODEL_DIR w) model_name) in
  match r with
  | Ret _ =>
      exists model_name files1,
        In (model_type, model_name) Hands.MODEL_FILES
        /\ is_Some (fs s !! src model_name)
        /\ only_adds_directories (fs s) files1
        /\ (PyPath.parent output_path <> [] ->
            PyPath.parent output_path <> ["/"] ->
            PyPath.parent output_path <> ["//"] ->
            files1 !! PyPath.to_string (PyPath.parent output_path) = Some Dir)
        /\ Hands.convert w (src model_name) dst files1 = (Ok tt, fs s')
        /\ trace s' = trace s ++ [made; Call (T2O_convert (src model_name) dst)]
  | Raise e =>
      (s' = s
       /\ (exc_cls e = ValueError /\ ~ In model_type (Hands.keys Hands.MODEL_FILES)
           \/ exc_cls e = FileNotFoundError))
      \/ (trace s' = trace s ++ [made]
          /\ only_adds_directories (fs s) (fs s')
          /\ (exc_cls e = FileExistsError \/ exc_cls e = NotADirectoryError))
      \/ (exists model_name files1,
            In (model_type, model_name) Hands.MODEL_FILES
            /\ only_adds_directories (fs s) files1
            /\ Hands.convert w (src model_name) dst files1 = (Err e, fs s')
            /\ trace s' = trace s ++ [made; Call (T2O_convert (src model_name) dst)])
  | SysExit _ => False
  end.

(* ===================================================================== *)
(** * Facts about the string methods *)
(* ===================================================================== *)

Section StringFacts.

Lemma length_app (s t : string) :
  String.length (s +:+ t) = String.length s + String.length t.
Proof. induction s as [|c s IH]; simpl; [reflexivity | now rewrite IH]. Qed.

Lemma substring_all (t : string) : String.substring 0 (String.length t) t = t.
Proof. induction t as [|c t IH]; simpl; [reflexivity | now rewrite IH]. Qed.

Lemma substring_skip_app (s t : string) (m : nat) :
  String.substring (String.length s) m (s +:+ t) = String.substring 0 m t.
Proof. induction s as [|c s IH]; simpl; [reflexivity | exact IH]. Qed.

Lemma drop_app (s t : string) : PyStr.drop (String.length s) (s +:+ t) = t.
Proof.
  unfold PyStr.drop. rewrite length_app, substring_skip_app.
  replace (String.length s + String.length t - String.length s)
    with (String.length t) by lia.
  apply substring_all.
Qed.

Lemma take_drop (s : string) : forall n,
  n <= String.length s -> PyStr.take n s +:+ PyStr.drop n s = s.
Proof.
  unfold PyStr.take, PyStr.drop.
  induction s as [|c s IH]; intros [|n] Hn; simpl in *; try reflexivity; try lia.
  - now rewrite substring_all.
  - change (String c (String.substring 0 n s +:+ String.substring n (String.length s - n) s) = String c s).
    f_equal. apply IH. lia.
Qed.

Lemma endswith_app (s suf : string) : PyStr.endswith (s +:+ suf) suf = true.
Proof.
  unfold PyStr.endswith. rewrite length_app.
  replace (String.length s + String.length suf - String.length suf)
    with (String.length s) by lia.
  rewrite drop_app, String.eqb_refl, andb_true_r.
  apply Nat.leb_le. lia.
Qed.

Lemma endswith_split (s suf : string) :
  PyStr.endswith s suf = true ->
  s = PyStr.take (String.length s - String.length suf) s +:+ suf.
Proof.
  unfold PyStr.endswith. intros H.
  apply andb_true_iff in H as [_ H]. apply String.eqb_eq in H.
  rewrite <- (take_drop s (String.length s - String.length suf)) at 1 by lia.
  now rewrite H.
Qed.

Lemma prefix_refl (s : string) : String.prefix s s = true.
Proof.
  induction s as [|c s IH]; simpl; [reflexivity|].
  destruct (ascii_dec c c); [exact IH | congruence].
Qed.

Lemma prefix_app (s t : string) : String.prefix s (s +:+ t) = true.
Proof.
  induction s as [|c s IH]; simpl; [now destruct t|].
  destruct (ascii_dec c c); [exact IH | congruence].
Qed.

Lemma prefix_length (p s : string) :
  String.prefix p s = true -> String.length p <= String.length s.
Proof.
  revert s. induction p as [|c p IH]; intros [|d s] H; simpl in *; try lia; try discriminate.
  destruct (ascii_dec c d); [|discriminate]. apply IH in H. lia.
Qed.

Lemma contains_prefix (sub s : string) :
  String.prefix sub s = true -> PyStr.contains sub s = true.
Proof. intros H. destruct s; unfold PyStr.contains; fold PyStr.contains; now rewrite H. Qed.

Lemma contains_app (sub p q : string) : PyStr.contains sub (p +:+ sub +:+ q) = true.
Proof.
  induction p as [|c p IH].
  - change (PyStr.contains sub (sub +:+ q) = true).
    apply contains_prefix. apply prefix_app.
  - change (String.prefix sub (String c (p +:+ sub +:+ q))
            || PyStr.contains sub (p +:+ sub +:+ q) = true).
    rewrite IH. apply orb_true_r.
Qed.

Lemma app_empty_r (s : string) : s +:+ "" = s.
Proof.
  induction s as [|c s IH]; [reflexivity|].
  change (String c (s +:+ "") = String c s). now rewrite IH.
Qed.

Lemma contains_suffix (sub p : string) : PyStr.contains sub (p +:+ sub) = true.
Proof.
  pose proof (contains_app sub p "") as H. now rewrite app_empty_r in H.
Qed.

(** The length of the outcome of [replace_from], by the number of
    matches. *)
Lemma replace_from_length (old new : string) (s : string) :
  1 <= String.length old -> forall k,
  String.length (PyStr.replace_from old new k s) + Nat.min k (String.length s)
    + PyStr.count_from old k s * String.length old
  = String.length s + PyStr.count_from old k s * String.length new.
Proof.
  intros Hold.
  induction s as [|c s IH]; intros k.
  - simpl. lia.
  - destruct k as [|k]; cbn [PyStr.replace_from PyStr.count_from].
    + destruct (String.prefix old (String c s)) eqn:Hp.
      * apply prefix_length in Hp.
        specialize (IH (String.length old - 1)).
        rewrite length_app. cbn [String.length] in *.
        rewrite Nat.min_0_l.
        rewrite Nat.min_l in IH by lia. nia.
      * specialize (IH 0). cbn [String.length]. rewrite Nat.min_0_l in *. lia.
    + specialize (IH k). cbn [String.length].
      rewrite <- Nat.succ_min_distr. lia.
Qed.

End StringFacts.

Section PtFacts.

Lemma count_pt_app (u : string) : forall k,
  k <= String.length u -> 1 <= PyStr.count_from ".pt" k (u +:+ ".pt").
Proof.
  induction u as [|c u IH]; intros k Hk.
  - simpl in Hk. replace k with 0 by lia. vm_compute. lia.
  - change (String c u +:+ ".pt") with (String c (u +:+ ".pt")).
    destruct k as [|k]; cbn [PyStr.count_from].
    + destruct (String.prefix ".pt" (String c (u +:+ ".pt"))); [lia|].
      apply IH. lia.
    + apply IH. simpl in Hk. lia.
Qed.

Lemma prefix_pt_length (c : ascii) (t : string) :
  String.prefix ".pt" (String c (t +:+ ".pt")) = true -> 2 <= String.length t.
Proof.
  intros H. apply String.prefix_correct in H.
  destruct t as [|a [|b t]]; simpl in *; try lia; inversion H.
Qed.

Lemma replace_pt_final (stem : string) :
  PyStr.count_from ".pt" 0 (stem +:+ ".pt") = 1 ->
  PyStr.replace_from ".pt" ".onnx" 0 (stem +:+ ".pt") = stem +:+ ".onnx".
Proof.
  induction stem as [|c t IH].
  - reflexivity.
  - change (String c t +:+ ".pt") with (String c (t +:+ ".pt")).
    cbn [PyStr.count_from PyStr.replace_from].
    destruct (String.prefix ".pt" (String c (t +:+ ".pt"))) eqn:Hp.
    + intros H. apply prefix_pt_length in Hp.
      pose proof (count_pt_app t 2 Hp) as Hc.
      change (String.length ".pt" - 1) with 2 in H. lia.
    + intros H. rewrite (IH H). reflexivity.
Qed.

Lemma replace_pt_length (s : string) :
  String.length (PyStr.replace s ".pt" ".onnx")
  = String.length s + 2 * PyStr.count s ".pt".
Proof.
  pose proof (replace_from_length ".pt" ".onnx" s) as H.
  specialize (H ltac:(simpl; lia) 0).
  change (String.length ".pt") with 3 in H.
  change (String.length ".onnx") with 5 in H.
  unfold PyStr.replace, PyStr.count. simpl in H. lia.
Qed.

End PtFacts.

(* ===================================================================== *)
(** * The detection-model exporter: names *)
(* ===================================================================== *)

(** C5.  The name-normalization step of [convert_yolo.py] (lines 83-84)
    appends [.pt] once to every name that lacks it, and applying it twice
    gives the same string as applying it once. *)
Theorem normalize_idempotent (model_name : string) :
  (PyStr.endswith model_name ".pt" = false ->
   Yolo.normalize model_name = model_name +:+ ".pt")
  /\ Yolo.normalize (Yolo.normalize model_name) = Yolo.normalize model_name.
Proof.
  unfold Yolo.normalize. split.
  - intros H. now rewrite H.
  - destruct (PyStr.endswith model_name ".pt") eqn:E; simpl.
    + now rewrite E.
    + now rewrite endswith_app.
Qed.

Lemma normalize_idempotent_witness :
  PyStr.endswith "yolov8s-seg" ".pt" = false
  /\ Yolo.normalize "yolov8s-seg" = "yolov8s-seg.pt"
  /\ Yolo.normalize (Yolo.normalize "yolov8s-seg") = Yolo.normalize "yolov8s-seg".
Proof.
  split; [reflexivity|]. split.
  - exact (proj1 (normalize_idempotent "yolov8s-seg") eq_refl).
  - exact (proj2 (normalize_idempotent "yolov8s-seg")).
Defined.



(* ===================================================================== *)
(** * Running the scripts: proof steps *)
(* ===================================================================== *)

Section WpRules.

Context {A B : Type}.

Lemma wp_ret (a : A) Q s : Q (Ret a) s -> wp (ret a) Q s.
Proof. exact (fun H => H). Qed.

Lemma wp_raise (e : exc) (Q : outcome A -> state -> Prop) s :
  Q (Raise e) s -> wp (raise e) Q s.
Proof. exact (fun H => H). Qed.

Lemma wp_sys_exit (c : Z) (Q : outcome A -> state -> Prop) s :
  Q (SysExit c) s -> wp (sys_exit c) Q s.
Proof. exact (fun H => H). Qed.

Lemma wp_bind (m : M A) (k : A -> M B) Q s :
  wp m (after_bind k Q) s -> wp (bind m k) Q s.
Proof.
  unfold wp, after_bind, bind. destruct (m s) as [[a|e|c] s1]; simpl; auto.
Qed.

Lemma wp_try (body : M A) hs Q s :
  wp body (after_try hs Q) s -> wp (try_except body hs) Q s.
Proof.
  unfold wp, after_try, try_except. destruct (body s) as [[a|e|c] s1]; simpl; auto.
  destruct (find_handler e hs); auto.
Qed.

Lemma wp_call (c : libcall) (r : result A) Q s :
  match r with
  | Ok a => Q (Ret a) (logged (Call c) s)
  | Err e => Q (Raise e) (logged (Call c) s)
  end -> wp (call c r) Q s.
Proof. unfold wp, call, bind, log, logged. destruct r; simpl; auto. Qed.

Lemma wp_call_fs (c : libcall) (f : fsT -> result A * fsT) Q s :
  match f (fs s) with
  | (Ok a, files) => Q (Ret a) (State files (trace s ++ [Call c]))
  | (Err e, files) => Q (Raise e) (State files (trace s ++ [Call c]))
  end -> wp (call_fs c f) Q s.
Proof.
  unfold wp, call_fs, bind, log. simpl. destruct (f (fs s)) as [[a|e] files]; simpl; auto.
Qed.

End WpRules.

Lemma wp_log (ev : event) Q s : Q (Ret tt) (logged ev s) -> wp (log ev) Q s.
Proof. exact (fun H => H). Qed.

Lemma wp_import (imports : pymodule -> option exc) (m : pymodule) Q s :
  match imports m with
  | None => Q (Ret tt) s
  | Some e => Q (Raise e) s
  end -> wp (import_ imports m) Q s.
Proof. unfold wp, import_. destruct (imports m); auto. Qed.

Lemma wp_path_exists (p : string) Q s :
  Q (Ret (bool_decide (is_Some (fs s !! p)))) s -> wp (path_exists p) Q s.
Proof. exact (fun H => H). Qed.

Lemma wp_getsize (p : string) Q s :
  match fs s !! p with
  | Some (File d) => Q (Ret (length d)) s
  | Some Dir => Q (Ret 0) s
  | None => Q (Raise (Exc FileNotFoundError p)) s
  end -> wp (getsize p) Q s.
Proof. unfold wp, getsize. destruct (fs s !! p) as [[d|]|]; auto. Qed.

Lemma wp_open_rb_read (p : string) Q s :
  match fs s !! p with
  | Some (File d) => Q (Ret d) (logged (OpenRead p) s)
  | Some Dir => Q (Raise (Exc IsADirectoryError p)) (logged (OpenRead p) s)
  | None => Q (Raise (Exc FileNotFoundError p)) (logged (OpenRead p) s)
  end -> wp (open_rb_read p) Q s.
Proof.
  unfold wp, open_rb_read, bind, log, logged. simpl.
  destruct (fs s !! p) as [[d|]|]; auto.
Qed.

Lemma wp_open_wb (p : string) Q s :
  match open_error (fs s) p with
  | Some e => Q (Raise e) (logged (OpenWrite p) s)
  | None => Q (Ret tt) (State (<[p := File []]> (fs s)) (trace s ++ [OpenWrite p]))
  end -> wp (open_wb p) Q s.
Proof.
  unfold wp, open_wb, bind, log, logged. simpl.
  destruct (open_error (fs s) p); auto.
Qed.

Lemma wp_attribute {A} (r : result A) (Q : outcome A -> state -> Prop) s :
  match r with
  | Ok a => Q (Ret a) s
  | Err e => Q (Raise e) s
  end -> wp (attribute r) Q s.
Proof. unfold wp, attribute. destruct r; auto. Qed.

Lemma wp_write (p : string) (data : bytes) Q s :
  Q (Ret tt)
    (State (alter (fun n => match n with
                            | File d => File (d ++ data)
                            | Dir => Dir
                            end) p (fs s)) (trace s)) ->
  wp (write p data) Q s.
Proof. exact (fun H => H). Qed.

Lemma wp_run (m : M unit) (Q : termination -> state -> Prop) s :
  wp m (fun r s' => Q (termination_of r) s') s ->
  Q (fst (run_script m s)) (snd (run_script m s)).
Proof. unfold wp, run_script. destruct (m s) as [[a|e|c] s1]; simpl; auto. Qed.

Lemma wp_run_eq (m : M unit) (Q : termination -> state -> Prop) s t s' :
  wp m (fun r s1 => Q (termination_of r) s1) s ->
  run_script m s = (t, s') -> Q t s'.
Proof. intros H E. apply wp_run in H. now rewrite E in H. Qed.

Lemma wp_consequence {A} (m : M A) (P Q : outcome A -> state -> Prop) s :
  (forall r s', P r s' -> Q r s') -> wp m P s -> wp m Q s.
Proof. unfold wp. auto. Qed.

(** Every exception of the model is an instance of [Exception]. *)
Lemma isinstance_Exception (e : exc) : isinstance e Exception = true.
Proof. destruct e as [[] msg]; reflexivity. Qed.

Lemma find_handler_Exception {A} (e : exc) (h : exc -> M A) rest :
  find_handler e ((Exception, h) :: rest) = Some h.
Proof. simpl. now rewrite isinstance_Exception. Qed.

Lemma exists_false (files : fsT) (p : string) :
  files !! p = None -> bool_decide (is_Some (files !! p)) = false.
Proof. intros H. rewrite H. apply bool_decide_eq_false. intros [x Hx]. discriminate. Qed.

Lemma exists_true (files : fsT) (p : string) (n : node) :
  files !! p = Some n -> bool_decide (is_Some (files !! p)) = true.
Proof. intros H. rewrite H. apply bool_decide_eq_true. eauto. Qed.

Lemma print_errors_run (errors : list string) : forall i s,
  Trt.print_errors i errors s
  = (Ret tt, State (fs s) (trace s ++ error_events i errors)).
Proof.
  induction errors as [|e rest IH]; intros i s.
  - simpl. unfold ret. rewrite app_nil_r. now destruct s.
  - cbn [Trt.print_errors error_events]. unfold bind, log, print, log. cbn [fs trace].
    rewrite IH. cbn [fs trace]. now rewrite <- !app_assoc.
Qed.

Lemma wp_print_errors (i : nat) (errors : list string) Q s :
  Q (Ret tt) (State (fs s) (trace s ++ error_events i errors)) ->
  wp (Trt.print_errors i errors) Q s.
Proof. unfold wp. now rewrite print_errors_run. Qed.

(** A part of the program whose outcome is known. *)
Lemma wp_known {A} (m : M A) (Q : outcome A -> state -> Prop) s r s' :
  m s = (r, s') -> Q r s' -> wp m Q s.
Proof. unfold wp. now intros ->. Qed.

(** Unfold the function at the head of the program. *)
Ltac unfold_head m :=
  lazymatch m with
  | ?f _ _ _ _ _ => unfold f
  | ?f _ _ _ _ => unfold f
  | ?f _ _ _ => unfold f
  | ?f _ _ => unfold f
  | ?f _ => unfold f
  | ?f => unfold f
  end.

Ltac wp_simpl :=
  cbv beta iota delta [after_bind after_try logged negb];
  cbn [fs trace fst snd Tflite.source Tflite.optimizations Tflite.supported_types];
  try rewrite find_handler_Exception.

(** Use what is known of [x], or else go through its cases. *)
Ltac known_or_cases x :=
  lazymatch goal with
  | H : x = _ |- _ => rewrite H
  | _ => destruct x eqn:?
  end.

(** One step of a run: the rule for the operation at the head, with a
    case analysis where the run depends on the installation or on the
    files. *)
Lemma apply_layers_run (w : Tflite.world) (ls : list layer) : forall s,
  Tflite.apply_layers w ls s
  = (match Tflite.layers_result w ls with
     | None => Ret tt
     | Some e => Raise e
     end,
     State (fs s) (trace s ++ Tflite.layer_events w ls)).
Proof.
  induction ls as [|l rest IH]; intros s.
  - simpl. unfold ret. rewrite app_nil_r. now destruct s.
  - cbn [Tflite.apply_layers Tflite.layers_result Tflite.layer_events].
    unfold bind, call, bind, log, ret, raise. cbn [fs trace].
    destruct (Tflite.keras_layer w l) as [[]|e].
    + rewrite IH. cbn [fs trace]. now rewrite <- app_assoc.
    + reflexivity.
Qed.

Lemma wp_apply_layers (w : Tflite.world) (ls : list layer) Q s :
  match Tflite.layers_result w ls with
  | None => Q (Ret tt) (State (fs s) (trace s ++ Tflite.layer_events w ls))
  | Some e => Q (Raise e) (State (fs s) (trace s ++ Tflite.layer_events w ls))
  end -> wp (Tflite.apply_layers w ls) Q s.
Proof. unfold wp. rewrite apply_layers_run. now destruct (Tflite.layers_result w ls). Qed.

Ltac wp_step :=
  lazymatch goal with
  | H : raises ?m |- wp ?m _ ?s =>
      let E := fresh "E" in
      destruct (H s) as (? & ? & E);
      apply (wp_known _ _ _ _ _ E)
  | H : returns ?m _ |- wp ?m _ ?s =>
      let E := fresh "E" in
      destruct (H s) as (? & E);
      apply (wp_known _ _ _ _ _ E)
  | H : raises_on ?m _ |- wp ?m _ ?s =>
      let E := fresh "E" in
      destruct (H s eq_refl) as (? & ? & E);
      apply (wp_known _ _ _ _ _ E)
  | H : returns_on ?m _ _ |- wp ?m _ ?s =>
      let E := fresh "E" in
      destruct (H s eq_refl) as (? & E);
      apply (wp_known _ _ _ _ _ E)
  | |- wp (Tflite.apply_layers ?w ?ls) _ _ =>
      apply wp_apply_layers; known_or_cases (Tflite.layers_result w ls)
  | |- wp (bind _ _) _ _ => apply wp_bind
  | |- wp (ret _) _ _ => apply wp_ret
  | |- wp (raise _) _ _ => apply wp_raise
  | |- wp (sys_exit _) _ _ => apply wp_sys_exit
  | |- wp (print _) _ _ => apply wp_log
  | |- wp (log _) _ _ => apply wp_log
  | |- wp (try_except _ _) _ _ => apply wp_try
  | |- wp (Trt.print_errors _ _) _ _ => apply wp_print_errors
  | |- wp (call _ ?r) _ _ =>
      apply wp_call;
      lazymatch r with
      | Ok _ => idtac
      | Err _ => idtac
      | _ => known_or_cases r
      end
  | |- wp (call_fs _ ?f) _ ?s =>
      apply wp_call_fs; cbn [fs trace];
      lazymatch goal with
      | |- context [match f ?files with _ => _ end] =>
          lazymatch goal with
          | H : f files = _ |- _ => rewrite H
          | _ => destruct (f files) as [[?|?] ?] eqn:?
          end
      end
  | |- wp (import_ ?i ?m) _ _ => apply wp_import; known_or_cases (i m)
  | |- wp (path_exists _) _ _ =>
      apply wp_path_exists; cbn [fs trace];
      try (rewrite exists_false by assumption);
      try (erewrite exists_true by eassumption)
  | |- wp (getsize ?p) _ ?s =>
      apply wp_getsize; cbn [fs trace];
      lazymatch goal with
      | |- match ?x with _ => _ end =>
          lazymatch goal with
          | H : x = _ |- _ => rewrite H
          | _ => destruct x as [[?|]|] eqn:?
          end
      end
  | |- wp (open_rb_read ?p) _ ?s =>
      apply wp_open_rb_read; cbn [fs trace];
      lazymatch goal with
      | |- match ?x with _ => _ end =>
          lazymatch goal with
          | H : x = _ |- _ => rewrite H
          | _ => destruct x as [[?|]|] eqn:?
          end
      end
  | |- wp (open_wb ?p) _ ?s =>
      apply wp_open_wb; cbn [fs trace];
      lazymatch goal with
      | |- match ?x with _ => _ end =>
          lazymatch goal with
          | H : x = _ |- _ => rewrite H
          | _ => destruct x as [?|] eqn:?
          end
      end
  | |- wp (attribute ?r) _ _ =>
      apply wp_attribute;
      lazymatch r with
      | Ok _ => idtac
      | Err _ => idtac
      | _ => known_or_cases r
      end
  | |- wp (write _ _) _ _ => apply wp_write
  | |- wp (if ?b then _ else _) _ _ => known_or_cases b
  | |- wp (match ?x with _ => _ end) _ _ => known_or_cases x
  | |- wp (let _ := _ in _) _ _ => cbv zeta
  | |- wp ?m _ _ => unfold_head m
  | |- context [find_handler _ (_ :: _)] =>
      cbn [find_handler]; rewrite ?isinstance_Exception;
      repeat lazymatch goal with
             | |- context [isinstance (Exc ?c ?m) ?d] =>
                 let v := eval vm_compute in (isinstance (Exc c m) d) in
                 change (isinstance (Exc c m) d) with v
             end
  | |- match (if ?b then _ else _) with _ => _ end => destruct b eqn:?
  end; wp_simpl.

Ltac wp_run := repeat wp_step.

(** The event is in a trace that was built by appending. *)
Ltac in_trace :=
  unfold printed; cbn [trace];
  solve [ repeat (apply in_or_app; first [ right; left; reflexivity | left ]) ].

(** From a run that ended as [t] to the rule-by-rule run. *)
Ltac by_run H :=
  lazymatch type of H with
  | run_script ?m ?s = (?t, ?s') =>
      pattern s';
      lazymatch goal with
      | |- ?P s' =>
          refine (wp_run_eq m (fun t1 s1 => t1 = t -> P s1) s t s' _ H eq_refl);
          clear H; try clear s'
      end
  end.

(* ===================================================================== *)
(** * The detection-model exporter: runs *)
(* ===================================================================== *)



(** The part of the trace a run added is found by reassociating. *)
Ltac trace_added :=
  eexists; split;
  [ rewrite <- ?app_assoc; cbn [app];
    first [ reflexivity | symmetry; apply app_nil_r ]
  | reflexivity ].

(* ===================================================================== *)
(** * The engine builder *)
(* ===================================================================== *)

(** C3.  When [models/yolov8n.onnx] does not exist, the engine builder
    ends with status 1 (through [sys.exit(1)] when tensorrt can be
    imported), leaves the files as they are, and what it adds to the
    trace holds no library call and no file operation. *)
Theorem engine_builder_missing_input (w : Trt.world) (s : state) :
  fs s !! Trt.onnx_file = None ->
  let run := run_script (Trt.script w) s in
  exit_status (fst run) = 1%Z
  /\ (Trt.imports w tensorrt = None -> fst run = Exited 1)
  /\ fs (snd run) = fs s
  /\ exists added, trace (snd run) = trace s ++ added /\ forallb quiet added = true.
Proof.
  intros H.
  apply (wp_run (Trt.script w)
           (fun t s' => exit_status t = 1%Z
                        /\ (Trt.imports w tensorrt = None -> t = Exited 1)
                        /\ fs s' = fs s
                        /\ exists added, trace s' = trace s ++ added
                                         /\ forallb quiet added = true)).
  wp_run.
  all: cbn [termination_of exit_status].
  all: repeat split; try reflexivity; try congruence; trace_added.
Qed.

Lemma engine_builder_missing_input_witness :
  let run := run_script (Trt.script Examples.trt_ok) (start ∅) in
  exit_status (fst run) = 1%Z /\ fst run = Exited 1 /\ fs (snd run) = ∅.
Proof.
  pose proof (engine_builder_missing_input Examples.trt_ok (start ∅) eq_refl)
    as (H1 & H2 & H3 & _).
  split; [exact H1|]. split; [exact (H2 eq_refl) | exact H3].
Defined.


Lemma write_after_open (p : string) (data : bytes) (files : fsT) :
  alter (fun n => match n with
                  | File d => File (d ++ data)
                  | Dir => Dir
                  end) p (<[p := File []]> files)
  = <[p := File data]> files.
Proof. now rewrite alter_insert_eq. Qed.

Lemma error_events_inv (ev : event) (errors : list string) : forall i,
  In ev (error_events i errors) ->
  (exists j, ev = Call (Trt_get_error j)) \/ (exists e, ev = Print e).
Proof.
  induction errors as [|e rest IH]; intros i Hin; simpl in Hin.
  - destruct Hin.
  - destruct Hin as [<- | [<- | Hin]]; eauto.
Qed.

(** The event is not among those a run added before reaching it. *)
Ltac not_added Hin Hnot :=
  exfalso; apply Hnot; clear Hnot;
  repeat (apply in_app_or in Hin;
          destruct Hin as [Hin | Hin];
          [| first [ destruct Hin as [Hin | []]; discriminate Hin
                   | apply error_events_inv in Hin;
                     destruct Hin as [[? Hin] | [? Hin]]; discriminate Hin ] ]);
  exact Hin.

(** The engine builder when the engine comes back as [None]: it does not
    return [True], it writes nothing, and once the build call was made it
    returns [False]. *)
Lemma build_engine_none (w : Trt.world) (onnx_path engine_path : string) (s : state) :
  (forall data, fs s !! onnx_path = Some (File data) ->
                Trt.build_serialized_network w data = Ok None) ->
  wp (Trt.build_engine w onnx_path engine_path)
     (fun r s' =>
        r <> Ret true /\ fs s' = fs s
        /\ (In (Call Trt_build_serialized_network) (trace s') ->
            ~ In (Call Trt_build_serialized_network) (trace s) ->
            r = Ret false /\ printed "Failed to build engine" s')) s.
Proof.
  intros H. wp_run.
  all: try (exfalso;
            match goal with
            | Hd : fs _ !! _ = Some (File ?d),
              Hb : Trt.build_serialized_network _ ?d = _ |- _ =>
                first [specialize (H d Hd) | specialize (H d eq_refl)]; congruence
            end).
  all: split; [discriminate|]; split; [reflexivity|].
  all: intros Hin Hnot.
  all: first [ not_added Hin Hnot | split; [reflexivity | in_trace] ].
Qed.

(** A [True] from the engine builder means that the whole engine is in
    the output file. *)
Lemma build_engine_true (w : Trt.world) (onnx_path engine_path : string) (s : state) :
  wp (Trt.build_engine w onnx_path engine_path)
     (fun r s' =>
        r = Ret true ->
        exists data engine,
          fs s !! onnx_path = Some (File data)
          /\ Trt.build_serialized_network w data = Ok (Some engine)
          /\ fs s' = <[engine_path := File engine]> (fs s)) s.
Proof.
  wp_run.
  all: intros Hr; try discriminate Hr.
  all: eexists; eexists; split; [reflexivity|]; split; [eassumption|].
  all: apply write_after_open.
Qed.

Lemma engine_script_none (w : Trt.world) (s : state) :
  (forall data, fs s !! Trt.onnx_file = Some (File data) ->
                Trt.build_serialized_network w data = Ok None) ->
  wp (Trt.script w)
     (fun r s' => exit_status (termination_of r) = 1%Z /\ fs s' = fs s) s.
Proof.
  intros H. wp_run.
  all: try (exfalso;
            match goal with
            | Hd : fs _ !! _ = Some (File ?d),
              Hb : Trt.build_serialized_network _ ?d = _ |- _ =>
                first [specialize (H d Hd) | specialize (H d eq_refl)]; congruence
            end).
  all: split; reflexivity.
Qed.

(* ===================================================================== *)
(** * The detection-model exporter: a missing output file *)
(* ===================================================================== *)

Ltac no_output H :=
  unfold Yolo.files_after_export in H;
  repeat match goal with
         | E : _ = (_, _) |- _ => rewrite E in H; cbn [snd] in H; clear E
         end;
  first [ congruence
        | match goal with
          | Hb : bool_decide _ = true |- _ =>
              rewrite (exists_false _ _ H) in Hb; discriminate Hb
          end ].

Lemma convert_model_no_output (w : Yolo.world) (model_name : string) (s : state) :
  Yolo.files_after_export w model_name (fs s) !! Yolo.resolve_output model_name None = None ->
  wp (Yolo.convert_model w model_name None) (fun r _ => r = Ret false) s.
Proof.
  intros H. wp_run.
  all: try reflexivity.
  all: exfalso; no_output H.
Qed.

Lemma exporter_script_no_output (w : Yolo.world) (argv : list string) (s : state) :
  Yolo.files_after_export w (Yolo.model_name_of argv) (fs s)
    !! Yolo.resolve_output (Yolo.model_name_of argv) None = None ->
  wp (Yolo.script w argv) (fun r _ => exit_status (termination_of r) = 1%Z) s.
Proof.
  intros H. wp_run.
  all: try reflexivity.
  all: exfalso; no_output H.
Qed.

Lemma convert_model_true (w : Yolo.world) (model_name : string) (s : state) :
  wp (Yolo.convert_model w model_name None)
     (fun r s' => r = Ret true ->
                  is_Some (fs s' !! Yolo.resolve_output model_name None)) s.
Proof.
  wp_run.
  all: intros Hr; try discriminate Hr.
  all: eauto.
Qed.

(** What decides the success of the engine builder is that an engine
    came back, whatever its bytes. *)
Lemma build_engine_any_engine (w : Trt.world) (onnx_path engine_path : string)
    (s : state) (data engine : bytes) :
  Trt.Logger w = Ok tt -> Trt.Builder w = Ok tt ->
  Trt.create_network w (Z.shiftl 1 (Trt.EXPLICIT_BATCH w)) = Ok tt ->
  Trt.OnnxParser w = Ok tt ->
  fs s !! onnx_path = Some (File data) ->
  Trt.parse w data = Ok true ->
  Trt.create_builder_config w = Ok tt ->
  Trt.set_memory_pool_limit w (Z.shiftl 4 30) = Ok tt ->
  Trt.set_flag w = Ok tt ->
  Trt.build_serialized_network w data = Ok (Some engine) ->
  open_error (fs s) engine_path = None ->
  wp (Trt.build_engine w onnx_path engine_path)
     (fun r s' => r = Ret true /\ fs s' = <[engine_path := File engine]> (fs s)) s.
Proof.
  intros H1 H2 H3 H4 H5 H6 H7 H8 H9 H10 H11. wp_run.
  split; [reflexivity | apply write_after_open].
Qed.

(** What decides the success of the exporter is that the output file
    exists after the export, whatever it is. *)
Lemma convert_model_any_file (w : Yolo.world) (model_name : string) (s : state)
    (files1 files2 : fsT) (n : node) :
  Yolo.YOLO w model_name (fs s) = (Ok tt, files1) ->
  Yolo.export w model_name files1 = (Ok tt, files2) ->
  files2 !! Yolo.resolve_output model_name None = Some n ->
  wp (Yolo.convert_model w model_name None) (fun r _ => r = Ret true) s.
Proof.
  intros H1 H2 H3. destruct n.
  all: wp_run.
  all: first [ reflexivity
             | match goal with
               | E : bool_decide _ = false |- _ =>
                   apply bool_decide_eq_false in E; exfalso; apply E; eauto
               end
             | congruence ].
Qed.

(** C6, as the code has it.  When the conversion call gives nothing (the
    serialized engine is [None]; the expected file is absent after the
    export), the wrapping function returns [False] and the process ends
    with status 1; the engine builder then writes no file.  A [True]
    means that the engine file holds the bytes the builder returned, and
    that the exporter's output file exists.  Neither script looks at
    these bytes: with the calls before it returning, an engine of any
    length, the empty one too, is written and gives [True]; an output
    file of any content gives [True]. *)
Theorem falsy_conversion_result_fails :
  (forall (w : Trt.world) onnx_path engine_path s,
      (forall data, fs s !! onnx_path = Some (File data) ->
                    Trt.build_serialized_network w data = Ok None) ->
      let r := fst (Trt.build_engine w onnx_path engine_path s) in
      let s' := snd (Trt.build_engine w onnx_path engine_path s) in
      r <> Ret true /\ fs s' = fs s
      /\ (In (Call Trt_build_serialized_network) (trace s') ->
          ~ In (Call Trt_build_serialized_network) (trace s) ->
          r = Ret false /\ printed "Failed to build engine" s'))
  /\ (forall (w : Trt.world) s,
        (forall data, fs s !! Trt.onnx_file = Some (File data) ->
                      Trt.build_serialized_network w data = Ok None) ->
        let run := run_script (Trt.script w) s in
        exit_status (fst run) = 1%Z /\ fs (snd run) = fs s)
  /\ (forall (w : Yolo.world) model_name s,
        Yolo.files_after_export w model_name (fs s)
          !! Yolo.resolve_output model_name None = None ->
        fst (Yolo.convert_model w model_name None s) = Ret false)
  /\ (forall (w : Yolo.world) argv s,
        Yolo.files_after_export w (Yolo.model_name_of argv) (fs s)
          !! Yolo.resolve_output (Yolo.model_name_of argv) None = None ->
        exit_status (fst (run_script (Yolo.script w argv) s)) = 1%Z)
  /\ (forall (w : Trt.world) onnx_path engine_path s,
        fst (Trt.build_engine w onnx_path engine_path s) = Ret true ->
        exists data engine,
          fs s !! onnx_path = Some (File data)
          /\ Trt.build_serialized_network w data = Ok (Some engine)
          /\ fs (snd (Trt.build_engine w onnx_path engine_path s))
             = <[engine_path := File engine]> (fs s))
  /\ (forall (w : Yolo.world) model_name s,
        fst (Yolo.convert_model w model_name None s) = Ret true ->
        is_Some (fs (snd (Yolo.convert_model w model_name None s))
                   !! Yolo.resolve_output model_name None))
  /\ (forall (w : Trt.world) onnx_path engine_path s data engine,
        Trt.Logger w = Ok tt -> Trt.Builder w = Ok tt ->
        Trt.create_network w (Z.shiftl 1 (Trt.EXPLICIT_BATCH w)) = Ok tt ->
        Trt.OnnxParser w = Ok tt ->
        fs s !! onnx_path = Some (File data) ->
        Trt.parse w data = Ok true ->
        Trt.create_builder_config w = Ok tt ->
        Trt.set_memory_pool_limit w (Z.shiftl 4 30) = Ok tt ->
        Trt.set_flag w = Ok tt ->
        Trt.build_serialized_network w data = Ok (Some engine) ->
        open_error (fs s) engine_path = None ->
        fst (Trt.build_engine w onnx_path engine_path s) = Ret true
        /\ fs (snd (Trt.build_engine w onnx_path engine_path s))
           = <[engine_path := File engine]> (fs s))
  /\ (forall (w : Yolo.world) model_name s files1 files2 n,
        Yolo.YOLO w model_name (fs s) = (Ok tt, files1) ->
        Yolo.export w model_name files1 = (Ok tt, files2) ->
        files2 !! Yolo.resolve_output model_name None = Some n ->
        fst (Yolo.convert_model w model_name None s) = Ret true).
Proof.
  split; [|split; [|split; [|split; [|split; [|split; [|split]]]]]].
  - intros w onnx_path engine_path s H.
    exact (build_engine_none w onnx_path engine_path s H).
  - intros w s H.
    exact (wp_run (Trt.script w) (fun t s' => exit_status t = 1%Z /\ fs s' = fs s) s
             (engine_script_none w s H)).
  - intros w model_name s H. exact (convert_model_no_output w model_name s H).
  - intros w argv s H.
    apply (wp_run (Yolo.script w argv) (fun t _ => exit_status t = 1%Z)).
    exact (exporter_script_no_output w argv s H).
  - intros w onnx_path engine_path s. exact (build_engine_true w onnx_path engine_path s).
  - intros w model_name s. exact (convert_model_true w model_name s).
  - intros w onnx_path engine_path s data engine H1 H2 H3 H4 H5 H6 H7 H8 H9 H10 H11.
    exact (build_engine_any_engine w onnx_path engine_path s data engine
             H1 H2 H3 H4 H5 H6 H7 H8 H9 H10 H11).
  - intros w model_name s files1 files2 n H1 H2 H3.
    exact (convert_model_any_file w model_name s files1 files2 n H1 H2 H3).
Qed.

Lemma falsy_conversion_result_fails_witness :
  (let run := run_script (Trt.script Examples.trt_none) (start Examples.disk) in
   exit_status (fst run) = 1%Z /\ fs (snd run) = Examples.disk)
  /\ exit_status (fst (run_script (Yolo.script Examples.yolo_no_output ["convert_yolo.py"])
                         (start ∅))) = 1%Z.
Proof.
  destruct falsy_conversion_result_fails as (_ & Htrt & _ & Hyolo & _).
  split.
  - apply (Htrt Examples.trt_none (start Examples.disk)). intros data _. reflexivity.
  - apply (Hyolo Examples.yolo_no_output ["convert_yolo.py"] (start ∅)).
    vm_compute. reflexivity.
Defined.

(** C6 does not hold as stated: an empty output is treated as success.
    The builder returns an engine of no bytes, or the export leaves a
    file of no bytes; the script writes, or finds, the empty file and
    ends with status 0. *)
Lemma falsy_conversion_result_fails_counterexample :
  (let run := run_script (Trt.script MoreExamples.trt_empty_engine) (start Examples.disk) in
   Trt.build_serialized_network MoreExamples.trt_empty_engine Examples.some_bytes
   = Ok (Some [])
   /\ exit_status (fst run) = 0%Z
   /\ fs (snd run) !! Trt.engine_file = Some (File []))
  /\ (let run := run_script (Yolo.script MoreExamples.yolo_empty_output ["convert_yolo.py"])
                   (start ∅) in
      exit_status (fst run) = 0%Z
      /\ fs (snd run) !! "yolov8n-seg.onnx" = Some (File [])).
Proof. vm_compute. repeat split; reflexivity. Qed.


(* ===================================================================== *)
(** * A missing dependency *)
(* ===================================================================== *)

Lemma tflite_missing_tensorflow (w : Tflite.world) (s : state) (msg : string) :
  Tflite.imports w numpy = None ->
  Tflite.imports w tensorflow = Some (Exc ModuleNotFoundError msg) ->
  wp (Tflite.script w)
     (fun r s' => r = SysExit 1
                  /\ printed "pip install tensorflow tensorflow-hub" s'
                  /\ fs s' = fs s) s.
Proof.
  intros Hnp Htf. wp_run.
  split; [reflexivity|]. split; [in_trace | reflexivity].
Qed.

Lemma import_fails (imports : pymodule -> option exc) (m : pymodule) (e : exc)
    (rest : M unit) (s : state) :
  imports m = Some e ->
  run_script (import_ imports m ;; rest) s = (Unhandled e, s).
Proof. intros H. unfold run_script, bind, import_. now rewrite H. Qed.

(** C1, as the code has it.  With its dependency not installed every
    script ends with status 1.  The mobile-segmentation converter (numpy
    being there) ends through [sys.exit(1)] after printing the line
    [pip install tensorflow tensorflow-hub]; the engine builder and the
    landmark exporter end by the unhandled import error of their first
    lines, with nothing printed. *)
Theorem missing_dependency (msg : string) :
  (forall (w : Tflite.world) s,
      Tflite.imports w numpy = None ->
      Tflite.imports w tensorflow = Some (Exc ModuleNotFoundError msg) ->
      let run := run_script (Tflite.script w) s in
      fst run = Exited 1
      /\ printed "pip install tensorflow tensorflow-hub" (snd run)
      /\ reports_missing_dependency run)
  /\ (forall (w : Trt.world) s,
        Trt.imports w tensorrt = Some (Exc ModuleNotFoundError msg) ->
        run_script (Trt.script w) s = (Unhandled (Exc ModuleNotFoundError msg), s))
  /\ (forall (w : Hands.world) argv s,
        Hands.imports w mediapipe = Some (Exc ModuleNotFoundError msg)
        \/ (Hands.imports w mediapipe = None
            /\ Hands.imports w tflite2onnx = Some (Exc ModuleNotFoundError msg)) ->
        run_script (Hands.script w argv) s = (Unhandled (Exc ModuleNotFoundError msg), s))
  /\ (forall (w : Yolo.world) argv s,
        Yolo.imports w ultralytics = Some (Exc ModuleNotFoundError msg) ->
        exit_status (fst (run_script (Yolo.script w argv) s)) = 1%Z).
Proof.
  split; [|split; [|split]].
  - intros w s Hnp Htf.
    pose proof (wp_run (Tflite.script w)
                  (fun t s' => t = Exited 1
                               /\ printed "pip install tensorflow tensorflow-hub" s'
                               /\ fs s' = fs s) s) as H.
    destruct H as (Ht & Hp & _).
    { eapply wp_consequence; [|exact (tflite_missing_tensorflow w s msg Hnp Htf)].
      intros r s' (-> & ? & ?). auto. }
    intros run. split; [exact Ht|]. split; [exact Hp|].
    unfold reports_missing_dependency. subst run. rewrite Ht. cbn [fst snd].
    split; [reflexivity|]. split; [|reflexivity].
    exists "pip install tensorflow tensorflow-hub". split; [exact Hp | reflexivity].
  - intros w s H. exact (import_fails _ _ _ _ s H).
  - intros w argv s [H | [H1 H2]].
    + exact (import_fails _ _ _ _ s H).
    + unfold Hands.script, run_script, bind, import_. now rewrite H1, H2.
  - intros w argv s H. unfold Yolo.script. now rewrite (import_fails _ _ _ _ s H).
Qed.

Lemma missing_dependency_witness :
  reports_missing_dependency (run_script (Tflite.script Examples.tflite_absent) (start ∅))
  /\ run_script (Trt.script Examples.trt_absent) (start ∅)
     = (Unhandled (Exc ModuleNotFoundError "No module named 'tensorrt'"), start ∅).
Proof.
  split.
  - exact (proj2 (proj2 (proj1 (missing_dependency "No module named 'tensorflow'")
                           Examples.tflite_absent (start ∅) eq_refl eq_refl))).
  - exact (proj1 (proj2 (missing_dependency "No module named 'tensorrt'"))
             Examples.trt_absent (start ∅) eq_refl).
Defined.

(** C1 does not hold as stated: with tensorrt not installed the engine
    builder ends by an unhandled exception and prints no install
    instruction. *)
Lemma missing_dependency_counterexample :
  absent (Trt.imports Examples.trt_absent) tensorrt
  /\ ~ reports_missing_dependency (run_script (Trt.script Examples.trt_absent) (start ∅)).
Proof.
  split.
  - eexists. reflexivity.
  - intros (_ & _ & H). vm_compute in H. discriminate H.
Qed.


(* ===================================================================== *)
(** * The fallback chain *)
(* ===================================================================== *)

Lemma attempt_minimal_run (w : Tflite.world) (s : state) :
  wp (Tflite.attempt_minimal w)
     (fun r s' => forall m, r = Ret m ->
                  m = Tflite.KerasModel Tflite.minimal_layers
                  /\ printed "Minimal segmentation model created successfully!" s') s.
Proof.
  wp_run. all: intros m Hm; try discriminate Hm.
  injection Hm as <-. split; [reflexivity | in_trace].
Qed.

Lemma attempt_minimal_value (w : Tflite.world) (m : Tflite.model) :
  returns (Tflite.attempt_minimal w) m -> m = Tflite.KerasModel Tflite.minimal_layers.
Proof.
  intros H. destruct (H (start ∅)) as (s' & E).
  pose proof (attempt_minimal_run w (start ∅)) as Hw.
  unfold wp in Hw. rewrite E in Hw. exact (proj1 (Hw m eq_refl)).
Qed.

Lemma attempt_minimal_prints (w : Tflite.world) (m : Tflite.model) (s s' : state) :
  Tflite.attempt_minimal w s = (Ret m, s') ->
  printed "Minimal segmentation model created successfully!" s'.
Proof.
  intros E. pose proof (attempt_minimal_run w s) as Hw.
  unfold wp in Hw. rewrite E in Hw. exact (proj2 (Hw m eq_refl)).
Qed.

Lemma hub_load_raises (w : Tflite.world) (e : exc) (files files' : fsT) :
  Tflite.hub_load w Tflite.hub_url files = (Err e, files') ->
  raises_on (Tflite.attempt_hub w) files.
Proof.
  intros H s <-. unfold Tflite.attempt_hub, bind, import_, call_fs, bind, log, raise, ret.
  destruct (Tflite.imports w tensorflow); [eauto|].
  destruct (Tflite.imports w tensorflow_hub); [eauto|].
  cbn. rewrite H. eauto.
Qed.

Lemma wp_returns {A} (m : M A) (a : A) :
  (forall s, wp m (fun r _ => r = Ret a) s) -> returns m a.
Proof.
  intros H s. specialize (H s). unfold wp in H.
  destruct (m s) as [r s']. simpl in H. subst r. eauto.
Qed.

Lemma wp_raises {A} (m : M A) (e : exc) :
  (forall s, wp m (fun r _ => r = Raise e) s) -> raises m.
Proof.
  intros H s. specialize (H s). unfold wp in H.
  destruct (m s) as [r s']. simpl in H. subst r. eauto.
Qed.

(** Each attempt either raises or returns a model; which one does not
    depend on the state it starts in. *)
Ltac settle_attempt :=
  first [ left; eapply wp_raises; intros s; wp_run; reflexivity
        | right; eexists; eapply wp_returns; intros s; wp_run; reflexivity ].

Lemma wp_returns_on {A} (m : M A) (a : A) (files : fsT) :
  (forall s, fs s = files -> wp m (fun r _ => r = Ret a) s) -> returns_on m a files.
Proof.
  intros H s Hs. specialize (H s Hs). unfold wp in H.
  destruct (m s) as [r s']. simpl in H. subst r. eauto.
Qed.

Lemma wp_raises_on {A} (m : M A) (e : exc) (files : fsT) :
  (forall s, fs s = files -> wp m (fun r _ => r = Raise e) s) -> raises_on m files.
Proof.
  intros H s Hs. specialize (H s Hs). unfold wp in H.
  destruct (m s) as [r s']. simpl in H. subst r. eauto.
Qed.

(** The same for the registry attempt, whose outcome depends on the
    files it finds. *)
Ltac settle_attempt_on :=
  first [ left; eapply wp_raises_on; intros s <-; wp_run; reflexivity
        | right; eexists; eapply wp_returns_on; intros s <-; wp_run; reflexivity ].

Lemma attempt_hub_total (w : Tflite.world) (files : fsT) :
  raises_on (Tflite.attempt_hub w) files
  \/ exists m, returns_on (Tflite.attempt_hub w) m files.
Proof.
  destruct (Tflite.imports w tensorflow) eqn:?,
           (Tflite.imports w tensorflow_hub) eqn:?,
           (Tflite.hub_load w Tflite.hub_url files) as [[?|?] ?] eqn:?; settle_attempt_on.
Qed.

Lemma attempt_simple_total (w : Tflite.world) :
  raises (Tflite.attempt_simple w) \/ exists m, returns (Tflite.attempt_simple w) m.
Proof.
  destruct (Tflite.imports w tensorflow) eqn:?,
           (Tflite.keras_Input w) eqn:?,
           (Tflite.layers_result w Tflite.simple_layers) eqn:?,
           (Tflite.keras_Model w Tflite.simple_layers) eqn:?; settle_attempt.
Qed.

Lemma attempt_minimal_total (w : Tflite.world) :
  raises (Tflite.attempt_minimal w) \/ exists m, returns (Tflite.attempt_minimal w) m.
Proof.
  destruct (Tflite.imports w tensorflow) eqn:?,
           (Tflite.keras_Input w) eqn:?,
           (Tflite.layers_result w Tflite.minimal_layers) eqn:?,
           (Tflite.keras_Model w Tflite.minimal_layers) eqn:?; settle_attempt.
Qed.

(** C2.  The model to export comes from the first of the three attempts
    that raises nothing: the registry download, else the encoder/decoder
    network, else the minimal network, whose output has 2 classes.  With
    the first two attempts raising, the third is made and the function
    returns (its result, or [None] when it raises too) instead of ending
    the run.  Every attempt either raises or returns; what the registry
    attempt does is taken on the files of the state the function starts
    in, since the registry reads its cache. *)
Theorem fallback_chain (w : Tflite.world) (s : state) :
  let result := fst (Tflite.download_deeplabv3_model w s) in
  (forall m, returns_on (Tflite.attempt_hub w) m (fs s) -> result = Ret (Some m))
  /\ (forall m, raises_on (Tflite.attempt_hub w) (fs s) ->
                returns (Tflite.attempt_simple w) m -> result = Ret (Some m))
  /\ (forall m, raises_on (Tflite.attempt_hub w) (fs s) ->
                raises (Tflite.attempt_simple w) ->
                returns (Tflite.attempt_minimal w) m ->
                result = Ret (Some (Tflite.KerasModel Tflite.minimal_layers))
                /\ Tflite.output_classes (Tflite.KerasModel Tflite.minimal_layers) = Some 2
                /\ printed "Minimal segmentation model created successfully!"
                     (snd (Tflite.download_deeplabv3_model w s)))
  /\ (raises_on (Tflite.attempt_hub w) (fs s) ->
      raises (Tflite.attempt_simple w) ->
      raises (Tflite.attempt_minimal w) -> result = Ret None)
  /\ (raises_on (Tflite.attempt_hub w) (fs s) ->
      raises (Tflite.attempt_simple w) ->
      printed "Creating minimal segmentation model..."
        (snd (Tflite.download_deeplabv3_model w s))
      /\ exists model, result = Ret model)
  /\ (forall e files', Tflite.hub_load w Tflite.hub_url (fs s) = (Err e, files') ->
                       raises_on (Tflite.attempt_hub w) (fs s))
  /\ (raises_on (Tflite.attempt_hub w) (fs s)
      \/ exists m, returns_on (Tflite.attempt_hub w) m (fs s))
  /\ (raises (Tflite.attempt_simple w) \/ exists m, returns (Tflite.attempt_simple w) m)
  /\ (raises (Tflite.attempt_minimal w) \/ exists m, returns (Tflite.attempt_minimal w) m).
Proof.
  intros result. subst result.
  split; [|split; [|split; [|split; [|split; [|split; [|split; [|split]]]]]]].
  - intros m H.
    change (wp (Tflite.download_deeplabv3_model w) (fun r _ => r = Ret (Some m)) s).
    wp_run. reflexivity.
  - intros m H1 H2.
    change (wp (Tflite.download_deeplabv3_model w) (fun r _ => r = Ret (Some m)) s).
    wp_run. reflexivity.
  - intros m H1 H2 H3. pose proof (attempt_minimal_value w m H3) as ->.
    change (wp (Tflite.download_deeplabv3_model w)
              (fun r s' => r = Ret (Some (Tflite.KerasModel Tflite.minimal_layers))
                           /\ Tflite.output_classes (Tflite.KerasModel Tflite.minimal_layers)
                              = Some 2
                           /\ printed "Minimal segmentation model created successfully!" s') s).
    wp_run. split; [reflexivity|]. split; [reflexivity|].
    eapply attempt_minimal_prints; eassumption.
  - intros H1 H2 H3.
    change (wp (Tflite.download_deeplabv3_model w) (fun r _ => r = Ret None) s).
    wp_run. reflexivity.
  - intros H1 H2.
    change (wp (Tflite.download_deeplabv3_model w)
              (fun r s' => printed "Creating minimal segmentation model..." s'
                           /\ exists model, r = Ret model) s).
    wp_run. all: split; [in_trace | eauto].
  - intros e files'. apply hub_load_raises.
  - apply attempt_hub_total.
  - apply attempt_simple_total.
  - apply attempt_minimal_total.
Qed.

Lemma fallback_chain_witness :
  raises_on (Tflite.attempt_hub Examples.tflite_fallback) ∅
  /\ raises (Tflite.attempt_simple Examples.tflite_fallback)
  /\ returns (Tflite.attempt_minimal Examples.tflite_fallback)
       (Tflite.KerasModel Tflite.minimal_layers)
  /\ fst (Tflite.download_deeplabv3_model Examples.tflite_fallback (start ∅))
     = Ret (Some (Tflite.KerasModel Tflite.minimal_layers)).
Proof.
  assert (H1 : raises_on (Tflite.attempt_hub Examples.tflite_fallback) ∅).
  { intros s Hs. eexists. eexists. reflexivity. }
  assert (H2 : raises (Tflite.attempt_simple Examples.tflite_fallback)).
  { intros s. eexists. eexists. reflexivity. }
  assert (H3 : returns (Tflite.attempt_minimal Examples.tflite_fallback)
                 (Tflite.KerasModel Tflite.minimal_layers)).
  { intros s. eexists. reflexivity. }
  split; [exact H1|]. split; [exact H2|]. split; [exact H3|].
  exact (proj1 (proj1 (proj2 (proj2 (fallback_chain Examples.tflite_fallback (start ∅))))
                  _ H1 H2 H3)).
Defined.


(* ===================================================================== *)
(** * The landmark exporter: errors before any effect *)
(* ===================================================================== *)

(** C9.  [export_hand_landmark] raises [ValueError] for every model type
    other than [lite] and [full], and [FileNotFoundError] when the
    bundled file is not there; in both cases the state is the one it
    started in: no directory made, no converter called, no file changed. *)
Theorem export_errors_before_effects (w : Hands.world) (output_path : PyPath.path)
    (model_type : string) (s : state) :
  (model_type <> "lite" -> model_type <> "full" ->
   Hands.export_hand_landmark w output_path model_type s
   = (Raise (Exc ValueError "model_type must be one of: lite, full"), s))
  /\ (forall model_name,
        In (model_type, model_name) Hands.MODEL_FILES ->
        let tflite_path := PyPath.to_string (PyPath.div (Hands.MODEL_DIR w) model_name) in
        fs s !! tflite_path = None ->
        Hands.export_hand_landmark w output_path model_type s
        = (Raise (Exc FileNotFoundError ("Could not locate " +:+ tflite_path)), s)).
Proof.
  split.
  - intros Hl Hf.
    apply String.eqb_neq in Hl, Hf. rewrite String.eqb_sym in Hl, Hf.
    unfold Hands.export_hand_landmark, bind, try_except.
    cbn [Hands.getitem Hands.MODEL_FILES]. rewrite Hl, Hf. reflexivity.
  - intros model_name Hin tflite_path Hnone. subst tflite_path.
    unfold Hands.export_hand_landmark, bind, try_except, path_exists.
    destruct Hin as [E | [E | []]]; injection E as <- <-;
      cbn [Hands.getitem Hands.MODEL_FILES String.eqb Ascii.eqb Bool.eqb ret];
      cbv beta iota; rewrite (exists_false _ _ Hnone); reflexivity.
Qed.

Lemma export_errors_before_effects_witness :
  Hands.export_hand_landmark Examples.hands_ok ["out"; "hand.onnx"] "heavy" (start Examples.disk)
  = (Raise (Exc ValueError "model_type must be one of: lite, full"), start Examples.disk)
  /\ Hands.export_hand_landmark Examples.hands_ok ["out"; "hand.onnx"] "lite" (start ∅)
     = (Raise (Exc FileNotFoundError
                 "Could not locate /usr/lib/python3/site-packages/mediapipe/modules/hand_landmark/hand_landmark_lite.tflite"),
        start ∅).
Proof.
  split.
  - apply (export_errors_before_effects Examples.hands_ok ["out"; "hand.onnx"] "heavy"
             (start Examples.disk)); discriminate.
  - apply (proj2 (export_errors_before_effects Examples.hands_ok ["out"; "hand.onnx"] "lite"
                    (start ∅)) "hand_landmark_lite.tflite").
    + left. reflexivity.
    + reflexivity.
Defined.

(* ===================================================================== *)
(** * The mobile-segmentation converter: writing after converting *)
(* ===================================================================== *)

Ltac settle_convert :=
  eexists; split; [ rewrite <- ?app_assoc; cbn [app]; reflexivity |];
  split; [ reflexivity |];
  split;
  [ intros ? He;
    first [ discriminate He | split; [reflexivity|]; split; reflexivity ] |];
  split;
  [ intros ? Hin Hb Hd;
    first [ discriminate Hb
          | discriminate Hd
          | exfalso; cbn in Hin; intuition discriminate
          | injection Hb as <-; split; [reflexivity | apply write_after_open] ] |];
  split;
  [ intros ? ? Hin Hb Hd;
    first [ discriminate Hb
          | discriminate Hd
          | exfalso; cbn in Hin; intuition discriminate
          | injection Hd as <-; split; [reflexivity|]; split; [reflexivity | in_trace] ] |];
  split;
  [ first [ left; reflexivity | right; reflexivity ]
  | intros Hex; first [ reflexivity | discriminate Hex ] ].





(* ===================================================================== *)
(** * Exit statuses *)
(* ===================================================================== *)

Section NoExit.

Context {A B : Type}.

Lemma no_exit_ret (a : A) : no_exit (ret a).
Proof. intros s c s' H. discriminate H. Qed.

Lemma no_exit_raise (e : exc) : no_exit (@raise A e).
Proof. intros s c s' H. discriminate H. Qed.

Lemma no_exit_bind (m : M A) (k : A -> M B) :
  no_exit m -> (forall a, no_exit (k a)) -> no_exit (bind m k).
Proof.
  intros Hm Hk s c s' H. unfold bind in H.
  destruct (m s) as [[a|e|c1] s1] eqn:E.
  - exact (Hk a s1 c s' H).
  - discriminate H.
  - exact (Hm s c1 s1 E).
Qed.

Lemma no_exit_try (body : M A) (hs : list (exc_class * (exc -> M A))) :
  no_exit body -> Forall (fun ch => forall e, no_exit (snd ch e)) hs ->
  no_exit (try_except body hs).
Proof.
  intros Hb Hh s c s' H. unfold try_except in H.
  destruct (body s) as [[a|e|c1] s1] eqn:E.
  - discriminate H.
  - destruct (find_handler e hs) as [h|] eqn:F; [|discriminate H].
    assert (Hn : forall e', no_exit (h e')).
    { clear H E. induction Hh as [|[c0 h0] rest H0 _ IH]; simpl in F; [discriminate|].
      destruct (isinstance e c0); [injection F as <-; exact H0 | exact (IH F)]. }
    exact (Hn e s1 c s' H).
  - exact (Hb s c1 s1 E).
Qed.

Lemma no_exit_call (c : libcall) (r : result A) : no_exit (call c r).
Proof. intros s c0 s' H. unfold call, bind, log in H. destruct r; discriminate H. Qed.

Lemma no_exit_call_fs (c : libcall) (f : fsT -> result A * fsT) : no_exit (call_fs c f).
Proof.
  intros s c0 s' H. unfold call_fs, bind, log in H. cbn [fs trace] in H.
  destruct (f (fs s)) as [[a|e] files]; discriminate H.
Qed.

End NoExit.

Lemma no_exit_log (ev : event) : no_exit (log ev).
Proof. intros s c s' H. discriminate H. Qed.

Lemma no_exit_import (imports : pymodule -> option exc) (m : pymodule) :
  no_exit (import_ imports m).
Proof. intros s c s' H. unfold import_ in H. destruct (imports m); discriminate H. Qed.

Lemma no_exit_path_exists (p : string) : no_exit (path_exists p).
Proof. intros s c s' H. discriminate H. Qed.

Lemma no_exit_getsize (p : string) : no_exit (getsize p).
Proof.
  intros s c s' H. unfold getsize in H. destruct (fs s !! p) as [[d|]|]; discriminate H.
Qed.

Lemma no_exit_open_rb_read (p : string) : no_exit (open_rb_read p).
Proof.
  intros s c s' H. unfold open_rb_read, bind, log in H. cbn [fs trace] in H.
  destruct (fs s !! p) as [[d|]|]; discriminate H.
Qed.

Lemma no_exit_open_wb (p : string) : no_exit (open_wb p).
Proof.
  intros s c s' H. unfold open_wb, bind, log in H. cbn [fs trace] in H.
  destruct (open_error (fs s) p); discriminate H.
Qed.

Lemma no_exit_attribute {A} (r : result A) : no_exit (attribute r).
Proof. intros s c s' H. unfold attribute in H. destruct r; discriminate H. Qed.

Lemma no_exit_write (p : string) (data : bytes) : no_exit (write p data).
Proof. intros s c s' H. discriminate H. Qed.

Lemma no_exit_print_errors (i : nat) (errors : list string) :
  no_exit (Trt.print_errors i errors).
Proof. intros s c s' H. rewrite print_errors_run in H. discriminate H. Qed.

Lemma no_exit_apply_layers (w : Tflite.world) (ls : list layer) :
  no_exit (Tflite.apply_layers w ls).
Proof.
  intros s c s' H. rewrite apply_layers_run in H.
  destruct (Tflite.layers_result w ls); discriminate H.
Qed.

Lemma no_exit_read_node (p : string) : no_exit (Tflite.read_node p).
Proof. intros s c s' H. discriminate H. Qed.

Lemma no_exit_getitem {V} (d : list (string * V)) (k : string) : no_exit (Hands.getitem d k).
Proof.
  induction d as [|[k' v] rest IH]; simpl.
  - apply no_exit_raise.
  - destruct (String.eqb k' k); [apply no_exit_ret | exact IH].
Qed.

Lemma no_exit_mkdir_chain (todo : list string) : forall done,
  no_exit (PyPath.mkdir_chain done todo).
Proof.
  induction todo as [|part rest IH]; intros done; cbn [PyPath.mkdir_chain].
  - apply no_exit_ret.
  - apply no_exit_bind; [|intros _; apply IH].
    intros s c s' H. unfold PyPath.mkdir_one in H.
    destruct (fs s !! _) as [[d|]|]; discriminate H.
Qed.

Create HintDb no_exit.
#[local] Hint Resolve no_exit_ret no_exit_raise no_exit_call no_exit_call_fs
  no_exit_log no_exit_import no_exit_path_exists no_exit_getsize
  no_exit_open_rb_read no_exit_open_wb no_exit_write no_exit_print_errors
  no_exit_apply_layers no_exit_read_node no_exit_getitem no_exit_mkdir_chain
  no_exit_attribute : no_exit.

(** The rule for the construct at the head, down to the operations. *)
Ltac no_exit_step :=
  lazymatch goal with
  | |- no_exit (bind _ _) => apply no_exit_bind; [| intros ?]
  | |- no_exit (try_except _ _) => apply no_exit_try; [| repeat constructor; intros ?]
  | |- no_exit (print _) => apply no_exit_log
  | |- no_exit (if ?b then _ else _) => destruct b
  | |- no_exit (match ?x with _ => _ end) => destruct x
  | |- no_exit (let _ := _ in _) => cbv zeta
  | |- no_exit ?m => first [ solve [auto with no_exit] | unfold_head m ]
  end; cbn [snd].

Ltac no_exit_run := repeat no_exit_step.

Lemma no_exit_convert_model (w : Yolo.world) (model_name : string) (o : option string) :
  no_exit (Yolo.convert_model w model_name o).
Proof. no_exit_run. Qed.

Lemma no_exit_tflite_main (w : Tflite.world) : no_exit (Tflite.main w).
Proof. no_exit_run. Qed.

Lemma no_exit_build_engine (w : Trt.world) (onnx_path engine_path : string) :
  no_exit (Trt.build_engine w onnx_path engine_path).
Proof. no_exit_run. Qed.

Lemma no_exit_export (w : Hands.world) (output_path : PyPath.path) (model_type : string) :
  no_exit (Hands.export_hand_landmark w output_path model_type).
Proof. no_exit_run. Qed.


(** A function that returns a boolean, followed by
    [sys.exit(0 if success else 1)]. *)
Lemma exit_by_success (m : M bool) (s : state) :
  no_exit m ->
  let run := run_script (success <- m ;; sys_exit (if success then 0 else 1)%Z) s in
  exits_zero_or_one run
  /\ (exit_status (fst run) = 0%Z <-> fst (m s) = Ret true).
Proof.
  intros Hn. unfold run_script, bind, sys_exit, exits_zero_or_one, status_in.
  destruct (m s) as [[[|]|e|c] s1] eqn:E; cbn.
  - split; [auto|]. tauto.
  - split; [auto|]. split; [discriminate | discriminate].
  - split; [auto|]. split; [discriminate | discriminate].
  - exfalso. exact (Hn s c s1 E).
Qed.

Lemma run_after (m k : M unit) (s : state) :
  fst (m s) = Ret tt -> run_script (m ;; k) s = run_script k (snd (m s)).
Proof.
  intros H. unfold run_script, bind.
  destruct (m s) as [[[]|e|c] s1]; simpl in H; try discriminate H. reflexivity.
Qed.

Lemma import_succeeds (imports : pymodule -> option exc) (m : pymodule) (s : state) :
  imports m = None -> import_ imports m s = (Ret tt, s).
Proof. intros H. unfold import_. now rewrite H. Qed.

Lemma announce_returns (model_name : string) (s : state) :
  fst (Yolo.announce model_name s) = Ret tt
  /\ fs (snd (Yolo.announce model_name s)) = fs s.
Proof. split; reflexivity. Qed.

Lemma yolo_status (w : Yolo.world) (argv : list string) (s : state) :
  let run := run_script (Yolo.script w argv) s in
  exits_zero_or_one run
  /\ (exit_status (fst run) = 0%Z <->
      Yolo.imports w ultralytics = None
      /\ fst (Yolo.convert_model w (Yolo.model_name_of argv) None
                (snd (Yolo.announce (Yolo.model_name_of argv) s))) = Ret true).
Proof.
  unfold Yolo.script, Yolo.main. cbv zeta.
  destruct (Yolo.imports w ultralytics) as [e|] eqn:Hi.
  - rewrite (import_fails _ _ _ _ s Hi). cbn [fst exit_status].
    split; [right; left; reflexivity|]. split; [discriminate | intros [? _]; discriminate].
  - pose proof (exit_by_success (Yolo.convert_model w (Yolo.model_name_of argv) None)
                  (snd (Yolo.announce (Yolo.model_name_of argv) s))
                  (no_exit_convert_model _ _ _)) as [H1 H2].
    rewrite run_after by (now rewrite import_succeeds).
    rewrite import_succeeds by exact Hi. cbn [snd].
    rewrite run_after by reflexivity.
    split; [exact H1|]. rewrite H2. tauto.
Qed.

Lemma tflite_status (w : Tflite.world) (s : state) :
  let run := run_script (Tflite.script w) s in
  exits_zero_or_one run
  /\ (exit_status (fst run) = 0%Z <->
      Tflite.imports w numpy = None /\ fst (Tflite.main w s) = Ret true).
Proof.
  unfold Tflite.script. cbv zeta.
  destruct (Tflite.imports w numpy) as [e|] eqn:Hi.
  - rewrite (import_fails _ _ _ _ s Hi). cbn [fst exit_status].
    split; [right; left; reflexivity|]. split; [discriminate | intros [? _]; discriminate].
  - pose proof (exit_by_success (Tflite.main w) s (no_exit_tflite_main w)) as [H1 H2].
    rewrite run_after by (now rewrite import_succeeds).
    rewrite import_succeeds by exact Hi. cbn [snd].
    split; [exact H1|]. rewrite H2. tauto.
Qed.

Lemma trt_status (w : Trt.world) (s : state) :
  let run := run_script (Trt.script w) s in
  exits_zero_or_one run
  /\ (exit_status (fst run) = 0%Z <->
      Trt.imports w tensorrt = None
      /\ is_Some (fs s !! Trt.onnx_file)
      /\ fst (Trt.build_engine w Trt.onnx_file Trt.engine_file s) = Ret true).
Proof.
  unfold Trt.script. cbv zeta.
  destruct (Trt.imports w tensorrt) as [e|] eqn:Hi.
  - rewrite (import_fails _ _ _ _ s Hi). cbn [fst exit_status].
    split; [right; left; reflexivity|]. split; [discriminate | intros [? _]; discriminate].
  - rewrite run_after by (now rewrite import_succeeds).
    rewrite import_succeeds by exact Hi. cbn [snd].
    pose proof (exit_by_success (Trt.build_engine w Trt.onnx_file Trt.engine_file) s
                  (no_exit_build_engine _ _ _)) as [H1 H2].
    unfold Trt.main.
    change (run_script (found <- path_exists Trt.onnx_file ;; _) s)
      with (run_script
              (if negb (bool_decide (is_Some (fs s !! Trt.onnx_file)))
               then print ("Error: " +:+ Trt.onnx_file +:+ " not found!") ;; sys_exit 1%Z
               else success <- Trt.build_engine w Trt.onnx_file Trt.engine_file ;;
                    sys_exit (if success then 0 else 1)%Z) s).
    destruct (bool_decide (is_Some (fs s !! Trt.onnx_file))) eqn:Hex; cbn [negb].
    + apply bool_decide_eq_true in Hex. split; [exact H1|]. rewrite H2. tauto.
    + apply bool_decide_eq_false in Hex. cbn.
      split; [right; left; reflexivity|]. split; [discriminate | tauto].
Qed.

(** With the empty list for an argument the export raises before any
    effect. *)
Lemma export_empty_list_raises (w : Hands.world) (model : option string) (s : state) :
  wp (Hands.export_empty_list w model)
     (fun r s' =>
        s' = s
        /\ exists e, r = Raise e
                     /\ (exc_cls e = TypeError
                         \/ exc_cls e = AttributeError
                         \/ exc_cls e = FileNotFoundError
                         \/ exc_cls e = ValueError
                            /\ exists m, model = Some m
                                         /\ ~ In m (Hands.keys Hands.MODEL_FILES))) s.
Proof.
  destruct model as [m|]; unfold Hands.export_empty_list.
  - cbn [Hands.getitem Hands.MODEL_FILES]. wp_run.
    all: split; [reflexivity|]; eexists; split; [reflexivity|]; cbn [exc_cls]; auto.
    do 3 right. split; [reflexivity|]. exists m. split; [reflexivity|].
    apply String.eqb_neq in Heqb, Heqb0. intros [H | [H | []]]; auto.
  - wp_run. split; [reflexivity|]. eexists. split; [reflexivity|]. cbn. auto.
Qed.

Lemma hands_status (w : Hands.world) (argv : list string) (s : state) :
  let run := run_script (Hands.script w argv) s in
  let parsed := Hands.parse_args w (tail argv) in
  let installed := Hands.imports w mediapipe = None /\ Hands.imports w tflite2onnx = None in
  status_in [0%Z; 1%Z; 2%Z] run
  /\ (exit_status (fst run) = 2%Z <->
      installed /\ exists msg, parsed = Argparse.UsageError msg)
  /\ (exit_status (fst run) = 0%Z <->
      installed
      /\ (parsed = Argparse.HelpExit
          \/ exists output model,
               parsed = Argparse.Parsed output model
               /\ fst (Hands.export_hand_landmark w output model s) = Ret tt)).
Proof.
  unfold Hands.script, status_in. cbv zeta.
  destruct (Hands.imports w mediapipe) as [e|] eqn:H1.
  { rewrite (import_fails _ _ _ _ s H1). cbn [fst exit_status].
    split; [simpl; auto|]. split; (split; [discriminate | intros [[? _] _]; discriminate]). }
  rewrite run_after by (now rewrite import_succeeds).
  rewrite import_succeeds by exact H1. cbn [snd].
  destruct (Hands.imports w tflite2onnx) as [e|] eqn:H2.
  { rewrite (import_fails _ _ _ _ s H2). cbn [fst exit_status].
    split; [simpl; auto|]. split; (split; [discriminate | intros [[_ ?] _]; discriminate]). }
  rewrite run_after by (now rewrite import_succeeds).
  rewrite import_succeeds by exact H2. cbn [snd].
  unfold Hands.main.
  destruct (Hands.parse_args w (tail argv)) as [output model | output model | | msg] eqn:Hp.
  - unfold run_script.
    destruct (Hands.export_hand_landmark w output model s) as [[[]|e|c] s1] eqn:E;
      cbn [fst exit_status].
    + split; [simpl; auto|]. split.
      * split; [discriminate | intros [_ [? ?]]; discriminate].
      * split; [|reflexivity]. intros _. split; [auto|]. right.
        exists output, model. rewrite E. auto.
    + split; [simpl; auto|]. split.
      * split; [discriminate | intros [_ [? ?]]; discriminate].
      * split; [discriminate|]. intros [_ [? | (o & m & Ho & Hr)]]; [discriminate|].
        injection Ho as <- <-. rewrite E in Hr. discriminate Hr.
    + exfalso. exact (no_exit_export w output model s c s1 E).
  - unfold run_script.
    pose proof (export_empty_list_raises w model s) as Hr. unfold wp in Hr.
    destruct (Hands.export_empty_list w model s) as [r s1].
    cbn [fst snd] in Hr. destruct Hr as (_ & e & -> & _). cbn.
    split; [auto|]. split.
    + split; [discriminate | intros [_ [? ?]]; discriminate].
    + split; [discriminate|]. intros [_ [? | (o & m & Ho & _)]]; discriminate.
  - cbn. split; [auto|]. split.
    + split; [discriminate | intros [_ [? ?]]; discriminate].
    + split; [|reflexivity]. intros _. split; [auto|]. left. reflexivity.
  - cbn. split; [auto|]. split.
    + split; [|reflexivity]. intros _. split; [auto|]. eauto.
    + split; [discriminate|].
      intros [_ [? | (o & m & Ho & _)]]; discriminate.
Qed.

Lemma is_value_not_dashes (o : string) :
  Argparse.is_value o = true -> String.eqb o "--" = false.
Proof.
  intros H. destruct (String.eqb_spec o "--") as [-> | _]; [discriminate H | reflexivity].
Qed.

Lemma argparse_output_only (o : string) :
  Argparse.is_value o = true ->
  Hands.argparse_args ["--output"; o] = Argparse.Parsed (PyPath.of_string o) "full".
Proof.
  intros H. unfold Hands.argparse_args, Argparse.parse_args.
  pose proof (is_value_not_dashes o H) as Hd.
  assert (Ha : Argparse.ambiguous ["--output"; o] = false).
  { cbn. rewrite Hd. unfold Argparse.is_value in H.
    destruct (Argparse.classify o); first [reflexivity | discriminate H]. }
  rewrite Ha. cbn. rewrite Hd, H. reflexivity.
Qed.

Lemma argparse_output_and_model (o m : string) :
  Argparse.is_value o = true -> In m (Hands.keys Hands.MODEL_FILES) ->
  Hands.argparse_args ["--output"; o; "--model"; m]
  = Argparse.Parsed (PyPath.of_string o) m.
Proof.
  intros H Hm. unfold Hands.argparse_args, Argparse.parse_args.
  pose proof (is_value_not_dashes o H) as Hd.
  assert (Ha : forall m', Argparse.is_value m' = true ->
                 Argparse.ambiguous ["--output"; o; "--model"; m'] = false).
  { intros m' Hm'. pose proof (is_value_not_dashes m' Hm') as Hd'.
    cbn. rewrite Hd. unfold Argparse.is_value in H, Hm'.
    destruct (Argparse.classify o); try discriminate H.
    cbn. rewrite Hd'. destruct (Argparse.classify m'); first [reflexivity | discriminate Hm']. }
  destruct Hm as [<- | [<- | []]].
  - rewrite Ha by reflexivity. cbn. rewrite Hd, H. reflexivity.
  - rewrite Ha by reflexivity. cbn. rewrite Hd, H. reflexivity.
Qed.





(* ===================================================================== *)
(** * Runs on the concrete installations *)
(* ===================================================================== *)

Example replace_all_occurrences :
  PyStr.replace "my.pth.pt" ".pt" ".onnx" = "my.onnxh.onnx".
Proof. reflexivity. Qed.

Example endswith_needs_the_dot : PyStr.endswith "pt" ".pt" = false.
Proof. reflexivity. Qed.

Example exporter_appends_suffix :
  Yolo.model_name_of ["convert_yolo.py"; "yolov8s-seg"] = "yolov8s-seg.pt"
  /\ Yolo.model_name_of ["convert_yolo.py"; "yolov8s-seg.pt"] = "yolov8s-seg.pt".
Proof. split; reflexivity. Qed.

(** The checkpoint [my.pth.pt]: the export leaves [my.pth.onnx], the
    script looks for [my.onnxh.onnx] and reports a failure. *)
Example exporter_inner_pt :
  let run := run_script (Yolo.script Examples.yolo_ok ["convert_yolo.py"; "my.pth"])
               (start ∅) in
  fst run = Exited 1
  /\ is_Some (fs (snd run) !! "my.pth.onnx")
  /\ printed (nl +:+ "✗ Error: Output file my.onnxh.onnx was not created") (snd run).
Proof.
  vm_compute. split; [reflexivity|]. split; [eauto|].
  repeat first [ left; reflexivity | right ].
Qed.

Example engine_builder_runs :
  let run := run_script (Trt.script Examples.trt_ok) (start Examples.disk) in
  fst run = Exited 0
  /\ fs (snd run) !! Trt.engine_file = Some (File Examples.some_bytes).
Proof. vm_compute. split; reflexivity. Qed.

Example fallback_run_succeeds :
  fst (run_script (Tflite.script Examples.tflite_fallback) (start ∅)) = Exited 0.
Proof. vm_compute. reflexivity. Qed.

Example landmark_exporter_bad_choice :
  fst (run_script (Hands.script Examples.hands_ok
                     ["export_mediapipe_hands.py"; "--output=hand.onnx"; "--model"; "big"])
         (start Examples.disk)) = Exited 2.
Proof. vm_compute. reflexivity. Qed.

Example landmark_exporter_makes_directories :
  let run := run_script (Hands.script Examples.hands_ok
                           ["export_mediapipe_hands.py"; "--output"; "out/dir/hand.onnx"])
               (start Examples.disk) in
  fst run = Completed
  /\ fs (snd run) !! "out/dir" = Some Dir
  /\ fs (snd run) !! "out/dir/hand.onnx" = Some (File Examples.some_bytes).
Proof. vm_compute. repeat split; reflexivity. Qed.

(** The token [--] is never a value and is never dropped; written after
    [=] it leaves the empty list in the namespace, on which the export
    raises. *)
Example landmark_exporter_double_dash :
  Hands.argparse_args ["--output"; "--"; "hand.onnx"]
  = Argparse.UsageError "expected one argument"
  /\ Hands.argparse_args ["--output"; "hand.onnx"; "--"]
     = Argparse.UsageError "unrecognized arguments"
  /\ Hands.argparse_args ["--output=--"] = Argparse.ParsedEmpty None (Some "full")
  /\ run_script (Hands.script Examples.hands_ok ["export_mediapipe_hands.py"; "--output=--"])
       (start Examples.disk)
     = (Unhandled (Exc AttributeError "'list' object has no attribute 'parent'"),
        start Examples.disk).
Proof. vm_compute. repeat split; reflexivity. Qed.

Example two_slashes_are_a_root :
  PyPath.of_string "//srv/out/hand.onnx" = ["//"; "srv"; "out"; "hand.onnx"]
  /\ PyPath.to_string (PyPath.parent (PyPath.of_string "//srv/out/hand.onnx")) = "//srv/out"
  /\ PyPath.of_string "///srv/out" = ["/"; "srv"; "out"]
  /\ PyPath.parent ["//"] = ["//"].
Proof. vm_compute. repeat split; reflexivity. Qed.

(** Without the directory [models] the engine cannot be written: the
    builder made its engine, [open] raises, and the script ends by the
    unhandled exception with no file changed. *)
Example engine_builder_missing_directory :
  let files : fsT := <[Trt.onnx_file := File Examples.some_bytes]> ∅ in
  let run := run_script (Trt.script Examples.trt_ok) (start files) in
  open_error files Trt.engine_file = Some (Exc FileNotFoundError Trt.engine_file)
  /\ fst run = Unhandled (Exc FileNotFoundError Trt.engine_file)
  /\ fs (snd run) = files.
Proof. vm_compute. repeat split; reflexivity. Qed.

(** A module [tensorflow] without [__version__]: the [AttributeError] is
    no [ImportError] and leaves [main]; the script ends with status 1. *)
Example converter_without_version :
  exit_status (fst (run_script (Tflite.script MoreExamples.tflite_no_version) (start ∅)))
  = 1%Z
  /\ fst (Tflite.main MoreExamples.tflite_no_version (start ∅))
     = Raise MoreExamples.no_version.
Proof. vm_compute. split; reflexivity. Qed.

(** The registry keeps its download on disk, beside the file the script
    writes. *)
Example registry_cache_is_kept :
  let run := run_script (Tflite.script Examples.tflite_ok) (start ∅) in
  fst run = Exited 0
  /\ fs (snd run) !! Examples.hub_cache = Some (File Examples.some_bytes)
  /\ fs (snd run) !! Tflite.output_path = Some (File Examples.some_bytes).
Proof. vm_compute. repeat split; reflexivity. Qed.

(* ===================================================================== *)
(** * The detection-model exporter: what [convert_model] returns *)
(* ===================================================================== *)

(** X1.  [convert_model] always returns a boolean, whatever the library
    calls do, and it writes nothing itself: the files at its end are the
    ones the two library calls left. *)
Theorem convert_model_returns_bool (w : Yolo.world) (model_name : string)
    (output_name : option string) (s : state) :
  let run := Yolo.convert_model w model_name output_name s in
  (fst run = Ret true \/ fst run = Ret false)
  /\ fs (snd run) = files_after_calls w model_name (fs s).
Proof.
  cbv zeta. unfold files_after_calls.
  change (wp (Yolo.convert_model w model_name output_name)
            (fun r s' => (r = Ret true \/ r = Ret false)
                         /\ fs s' = match Yolo.YOLO w model_name (fs s) with
                                    | (Ok _, files1) => snd (Yolo.export w model_name files1)
                                    | (Err _, files1) => files1
                                    end) s).
  wp_run.
  all: split; [auto | reflexivity].
Qed.

(** X2.  [convert_model] returns [True] exactly when the model was
    loaded, the export returned, and the output filename (the one given,
    or the one derived from the model name) exists after the export. *)
Theorem convert_model_success_iff (w : Yolo.world) (model_name : string)
    (output_name : option string) (s : state) :
  fst (Yolo.convert_model w model_name output_name s) = Ret true <->
  exists a1 files1 a2 files2,
    Yolo.YOLO w model_name (fs s) = (Ok a1, files1)
    /\ Yolo.export w model_name files1 = (Ok a2, files2)
    /\ is_Some (files2 !! Yolo.resolve_output model_name output_name).
Proof.
  change (wp (Yolo.convert_model w model_name output_name)
            (fun r _ => r = Ret true <->
               exists a1 files1 a2 files2,
                 Yolo.YOLO w model_name (fs s) = (Ok a1, files1)
                 /\ Yolo.export w model_name files1 = (Ok a2, files2)
                 /\ is_Some (files2 !! Yolo.resolve_output model_name output_name)) s).
  wp_run.
  all: split; [intros Hr; try discriminate Hr | intros (a1 & f1 & a2 & f2 & H1 & H2 & H3)].
  all: try reflexivity.
  all: try (do 4 eexists; split; [reflexivity|]; split; [eassumption|];
            match goal with E : _ !! _ = Some _ |- _ => rewrite E end; eauto).
  all: simplify_eq.
  all: try match goal with
           | E : Yolo.export ?a ?b ?c = _, H : Yolo.export ?a ?b ?c = _ |- _ =>
               rewrite E in H; simplify_eq
           end.
  all: first [ match goal with
               | E : bool_decide _ = false |- _ =>
                   apply bool_decide_eq_false in E; contradiction
               end
             | match goal with
               | E : _ !! _ = None |- _ =>
                   rewrite E in H3; destruct H3 as [? H3]; discriminate H3
               end ].
Qed.

Lemma convert_model_success_iff_witness :
  fst (Yolo.convert_model Examples.yolo_ok "yolov8n-seg.pt" None (start ∅)) = Ret true.
Proof.
  apply (convert_model_success_iff Examples.yolo_ok "yolov8n-seg.pt" None (start ∅)).
  do 4 eexists. split; [reflexivity|]. split; [reflexivity|].
  eexists. vm_compute. reflexivity.
Defined.

(** X3.  When the constructor or the export raises, [convert_model]
    returns [False] and reports by the class of the exception: the
    install instruction for an [ImportError], the message of the
    exception for any other. *)
Theorem convert_model_reports_exception (w : Yolo.world) (model_name : string)
    (output_name : option string) (s : state) (e : exc) :
  (exists files1, Yolo.YOLO w model_name (fs s) = (Err e, files1))
  \/ (exists a1 files1 files2,
        Yolo.YOLO w model_name (fs s) = (Ok a1, files1)
        /\ Yolo.export w model_name files1 = (Err e, files2)) ->
  let run := Yolo.convert_model w model_name output_name s in
  fst run = Ret false
  /\ (if isinstance e ImportError
      then printed "Please install it with: pip install ultralytics" (snd run)
      else printed (nl +:+ "✗ Error during conversion: " +:+ exc_msg e) (snd run)).
Proof.
  intros H. cbv zeta.
  change (wp (Yolo.convert_model w model_name output_name)
            (fun r s' =>
               r = Ret false
               /\ (if isinstance e ImportError
                   then printed "Please install it with: pip install ultralytics" s'
                   else printed (nl +:+ "✗ Error during conversion: " +:+ exc_msg e) s')) s).
  destruct H as [(f1 & H1) | (a1 & f1 & f2 & H1 & H2)].
  - wp_run. all: split; [reflexivity | in_trace].
  - wp_run. all: split; [reflexivity | in_trace].
Qed.

Lemma convert_model_reports_exception_witness :
  (let run := Yolo.convert_model (MoreExamples.yolo_raises MoreExamples.no_onnx)
                "yolov8n-seg.pt" None (start ∅) in
   fst run = Ret false
   /\ printed "Please install it with: pip install ultralytics" (snd run))
  /\ (let run := Yolo.convert_model (MoreExamples.yolo_raises MoreExamples.bad_weights)
                   "yolov8n-seg.pt" None (start ∅) in
      fst run = Ret false
      /\ printed (nl +:+ "✗ Error during conversion: invalid checkpoint") (snd run)).
Proof.
  split.
  - apply (convert_model_reports_exception (MoreExamples.yolo_raises MoreExamples.no_onnx)
             "yolov8n-seg.pt" None (start ∅) MoreExamples.no_onnx).
    left. eexists. reflexivity.
  - apply (convert_model_reports_exception (MoreExamples.yolo_raises MoreExamples.bad_weights)
             "yolov8n-seg.pt" None (start ∅) MoreExamples.bad_weights).
    left. eexists. reflexivity.
Defined.

Lemma replace_pt_keeps_suffix (u : string) : forall k,
  k <= String.length u ->
  exists v, PyStr.replace_from ".pt" ".onnx" k (u +:+ ".pt") = v +:+ ".onnx".
Proof.
  induction u as [|c u IH]; intros k Hk.
  - simpl in Hk. replace k with 0 by lia. exists "". reflexivity.
  - change (String c u +:+ ".pt") with (String c (u +:+ ".pt")).
    destruct k as [|k]; cbn [PyStr.replace_from].
    + destruct (String.prefix ".pt" (String c (u +:+ ".pt"))) eqn:Hp.
      * apply prefix_pt_length in Hp.
        destruct (IH 2 Hp) as (v & Hv). change (String.length ".pt" - 1) with 2.
        rewrite Hv. exists (".onnx" +:+ v). reflexivity.
      * destruct (IH 0 ltac:(lia)) as (v & Hv). rewrite Hv.
        exists (String c v). reflexivity.
    + apply IH. simpl in Hk. lia.
Qed.

(** X4.  Whatever the command line, the model name handed to
    [convert_model] ends with [.pt], and the output filename derived from
    it ends with [.onnx] and is another name than the model's. *)
Theorem names_from_command_line (argv : list string) :
  let model_name := Yolo.model_name_of argv in
  let output_name := Yolo.resolve_output model_name None in
  PyStr.endswith model_name ".pt" = true
  /\ PyStr.endswith output_name ".onnx" = true
  /\ output_name <> model_name.
Proof.
  cbv zeta.
  assert (He : PyStr.endswith (Yolo.model_name_of argv) ".pt" = true).
  { unfold Yolo.model_name_of. destruct argv as [|prog [|arg rest]]; try reflexivity.
    unfold Yolo.normalize. destruct (PyStr.endswith arg ".pt") eqn:E; simpl.
    - exact E.
    - apply endswith_app. }
  split; [exact He|].
  pose proof (endswith_split _ _ He) as Hs.
  set (stem := PyStr.take (String.length (Yolo.model_name_of argv) - String.length ".pt")
                 (Yolo.model_name_of argv)) in Hs.
  split.
  - unfold Yolo.resolve_output, PyStr.replace. rewrite Hs.
    destruct (replace_pt_keeps_suffix stem 0 ltac:(lia)) as (v & Hv).
    rewrite Hv. apply endswith_app.
  - intros Heq. apply (f_equal String.length) in Heq.
    unfold Yolo.resolve_output in Heq. rewrite replace_pt_length in Heq.
    assert (1 <= PyStr.count (Yolo.model_name_of argv) ".pt").
    { unfold PyStr.count. rewrite Hs. apply count_pt_app. lia. }
    lia.
Qed.

(* ===================================================================== *)
(** * The engine builder: order and files *)
(* ===================================================================== *)

Lemma error_events_prints (e : string) (errors : list string) : forall i,
  In e errors -> In (Print e) (error_events i errors).
Proof.
  induction errors as [|e' rest IH]; intros i Hin; simpl in *.
  - destruct Hin.
  - destruct Hin as [-> | Hin]; [right; left; reflexivity | right; right; auto].
Qed.

(** The event is none of those of a list written out, which may end
    with the events of the parser errors. *)
Ltac absent_event H :=
  solve [ simpl in H;
          repeat (destruct H as [H | H]; [discriminate H |]);
          first [ contradiction
                | apply error_events_inv in H;
                  destruct H as [[? H] | [? H]]; discriminate H ] ].

Ltac added_is :=
  eexists; split; [ rewrite <- ?app_assoc; cbn [app];
                    first [ reflexivity | symmetry; apply app_nil_r ] |].

(** X5.  When the parser rejects the model, [build_engine] does not
    return [True], changes no file and never calls the builder; and once
    the parse call was made it returns [False] after printing every
    error of the parser. *)
Theorem build_engine_parse_failure (w : Trt.world) (onnx_path engine_path : string)
    (s : state) (data : bytes) :
  fs s !! onnx_path = Some (File data) ->
  Trt.parse w data = Ok false ->
  let run := Trt.build_engine w onnx_path engine_path s in
  exists added,
    trace (snd run) = trace s ++ added
    /\ fst run <> Ret true
    /\ fs (snd run) = fs s
    /\ ~ In (Call Trt_build_serialized_network) added
    /\ (In (Call Trt_parse) added ->
        fst run = Ret false
        /\ forall e, In e (Trt.parse_errors w data) -> In (Print e) added).
Proof.
  intros Hf Hp. cbv zeta.
  change (wp (Trt.build_engine w onnx_path engine_path)
            (fun r s' =>
               exists added,
                 trace s' = trace s ++ added
                 /\ r <> Ret true
                 /\ fs s' = fs s
                 /\ ~ In (Call Trt_build_serialized_network) added
                 /\ (In (Call Trt_parse) added ->
                     r = Ret false
                     /\ forall e, In e (Trt.parse_errors w data) -> In (Print e) added)) s).
  wp_run.
  all: added_is.
  all: split; [discriminate|]; split; [reflexivity|].
  all: split; [intros H; absent_event H |].
  all: intros H.
  all: first [ absent_event H
             | split; [reflexivity|]; intros e He;
               do 7 right; apply error_events_prints; exact He ].
Qed.

Lemma build_engine_parse_failure_witness :
  let s := start (<[Trt.onnx_file := File []]> ∅) in
  let run := Trt.build_engine Examples.trt_ok Trt.onnx_file Trt.engine_file s in
  fst run = Ret false
  /\ fs (snd run) = fs s
  /\ printed "In node 0: empty model" (snd run).
Proof.
  intros s run.
  destruct (build_engine_parse_failure Examples.trt_ok Trt.onnx_file Trt.engine_file s []
              eq_refl eq_refl) as (added & Ht & _ & Hfs & _ & Hp).
  fold run in Ht, Hfs, Hp.
  assert (Ha : added = skipn 0 (trace (snd run))) by (rewrite Ht; reflexivity).
  vm_compute in Ha. subst added.
  destruct Hp as [Hr He]; [simpl; tauto|].
  split; [exact Hr|]. split; [exact Hfs|].
  unfold printed. rewrite Ht. apply He. left. reflexivity.
Defined.

(** X6.  [build_engine] changes no file but its engine file, which it
    either leaves alone or sets to a complete engine; so the script
    leaves every other file, its ONNX input among them, as it was. *)
Theorem build_engine_changes_only_engine_file (w : Trt.world) :
  (forall onnx_path engine_path s,
      let s' := snd (Trt.build_engine w onnx_path engine_path s) in
      fs s' = fs s
      \/ exists data engine,
           fs s !! onnx_path = Some (File data)
           /\ Trt.build_serialized_network w data = Ok (Some engine)
           /\ fs s' = <[engine_path := File engine]> (fs s))
  /\ (forall s p,
        p <> Trt.engine_file ->
        fs (snd (run_script (Trt.script w) s)) !! p = fs s !! p).
Proof.
  split.
  - intros onnx_path engine_path s. cbv zeta.
    change (wp (Trt.build_engine w onnx_path engine_path)
              (fun _ s' =>
                 fs s' = fs s
                 \/ exists data engine,
                      fs s !! onnx_path = Some (File data)
                      /\ Trt.build_serialized_network w data = Ok (Some engine)
                      /\ fs s' = <[engine_path := File engine]> (fs s)) s).
    wp_run.
    all: first [ left; reflexivity
               | right; eexists; eexists; split; [reflexivity|];
                 split; [eassumption | apply write_after_open] ].
  - intros s p Hp.
    apply (wp_run (Trt.script w) (fun _ s' => fs s' !! p = fs s !! p)).
    wp_run.
    all: first [ reflexivity
               | rewrite write_after_open; apply lookup_insert_ne; congruence ].
Qed.

Lemma build_engine_changes_only_engine_file_witness :
  fs (snd (run_script (Trt.script Examples.trt_ok) (start Examples.disk))) !! Trt.onnx_file
  = Some (File Examples.some_bytes).
Proof.
  rewrite (proj2 (build_engine_changes_only_engine_file Examples.trt_ok)
             (start Examples.disk) Trt.onnx_file) by discriminate.
  reflexivity.
Defined.

(** X7.  The builder is called only on a model the parser accepted, and
    the engine file is opened only for an engine the builder returned. *)
Theorem build_engine_order (w : Trt.world) (onnx_path engine_path : string) (s : state) :
  let s' := snd (Trt.build_engine w onnx_path engine_path s) in
  exists added,
    trace s' = trace s ++ added
    /\ (In (Call Trt_build_serialized_network) added ->
        exists data, fs s !! onnx_path = Some (File data) /\ Trt.parse w data = Ok true)
    /\ (In (OpenWrite engine_path) added ->
        exists data engine,
          fs s !! onnx_path = Some (File data)
          /\ Trt.build_serialized_network w data = Ok (Some engine)).
Proof.
  cbv zeta.
  change (wp (Trt.build_engine w onnx_path engine_path)
            (fun _ s' =>
               exists added,
                 trace s' = trace s ++ added
                 /\ (In (Call Trt_build_serialized_network) added ->
                     exists data, fs s !! onnx_path = Some (File data)
                                  /\ Trt.parse w data = Ok true)
                 /\ (In (OpenWrite engine_path) added ->
                     exists data engine,
                       fs s !! onnx_path = Some (File data)
                       /\ Trt.build_serialized_network w data = Ok (Some engine))) s).
  wp_run.
  all: added_is.
  all: split; intros H.
  all: first [ absent_event H
             | eexists; split; [reflexivity|];
               match goal with
               | E : (if ?b then false else true) = false |- _ =>
                   destruct b; [assumption | discriminate E]
               end
             | eexists; eexists; split; [reflexivity | eassumption] ].
Qed.

Lemma build_engine_order_witness :
  exists data engine,
    Examples.disk !! Trt.onnx_file = Some (File data)
    /\ Trt.build_serialized_network Examples.trt_ok data = Ok (Some engine).
Proof.
  destruct (build_engine_order Examples.trt_ok Trt.onnx_file Trt.engine_file
              (start Examples.disk)) as (added & Ht & _ & Hw).
  apply Hw.
  assert (Ha : added
               = skipn 0 (trace (snd (Trt.build_engine Examples.trt_ok Trt.onnx_file
                                        Trt.engine_file (start Examples.disk)))))
    by (rewrite Ht; reflexivity).
  vm_compute in Ha. subst added. simpl. tauto.
Defined.

(** X8.  When [models/yolov8n.onnx] is a directory, the check of line 46
    lets it pass: the script ends by an unhandled exception, not by its
    "not found" message, with status 1 and no file changed; with the
    calls before the read returning, the exception is the
    [IsADirectoryError] of [open]. *)
Theorem engine_builder_directory_input (w : Trt.world) (s : state) :
  fs s !! Trt.onnx_file = Some Dir ->
  let run := run_script (Trt.script w) s in
  (exists e, fst run = Unhandled e)
  /\ exit_status (fst run) = 1%Z
  /\ fs (snd run) = fs s
  /\ (Trt.imports w tensorrt = None ->
      Trt.Logger w = Ok tt -> Trt.Builder w = Ok tt ->
      Trt.create_network w (Z.shiftl 1 (Trt.EXPLICIT_BATCH w)) = Ok tt ->
      Trt.OnnxParser w = Ok tt ->
      fst run = Unhandled (Exc IsADirectoryError Trt.onnx_file)).
Proof.
  intros Hd.
  apply (wp_run (Trt.script w)
           (fun t s' =>
              (exists e, t = Unhandled e)
              /\ exit_status t = 1%Z
              /\ fs s' = fs s
              /\ (Trt.imports w tensorrt = None ->
                  Trt.Logger w = Ok tt -> Trt.Builder w = Ok tt ->
                  Trt.create_network w (Z.shiftl 1 (Trt.EXPLICIT_BATCH w)) = Ok tt ->
                  Trt.OnnxParser w = Ok tt ->
                  t = Unhandled (Exc IsADirectoryError Trt.onnx_file)))).
  wp_run.
  all: cbn [termination_of exit_status].
  all: split; [eauto|]; split; [reflexivity|]; split; [reflexivity|].
  all: intros; first [ reflexivity | congruence ].
Qed.

Lemma engine_builder_directory_input_witness :
  fst (run_script (Trt.script Examples.trt_ok) (start (<[Trt.onnx_file := Dir]> ∅)))
  = Unhandled (Exc IsADirectoryError Trt.onnx_file).
Proof.
  assert (Hd : fs (start (<[Trt.onnx_file := Dir]> ∅)) !! Trt.onnx_file = Some Dir)
    by (vm_compute; reflexivity).
  apply (engine_builder_directory_input Examples.trt_ok
           (start (<[Trt.onnx_file := Dir]> ∅)) Hd); reflexivity.
Defined.

(* ===================================================================== *)
(** * The mobile-segmentation converter: the parts of [main] *)
(* ===================================================================== *)

Lemma wp_read_node (p : string) Q s :
  Q (Ret (fs s !! p)) s -> wp (Tflite.read_node p) Q s.
Proof. exact (fun H => H). Qed.

Lemma layer_events_inv (w : Tflite.world) (ev : event) (ls : list layer) :
  In ev (Tflite.layer_events w ls) -> exists l, ev = Call (Keras_layer l).
Proof.
  induction ls as [|l rest IH]; simpl; [tauto|].
  intros [<- | H]; [eauto|]. destruct (Tflite.keras_layer w l); [auto | destruct H].
Qed.

(** A step of a run that also knows the operations of this part. *)
Ltac wp_step2 :=
  cbn [Tflite.has_signatures];
  lazymatch goal with
  | |- wp (Tflite.read_node _) _ _ => apply wp_read_node; wp_simpl
  | _ => wp_step
  end.

Ltac wp_run2 := repeat wp_step2.

Lemma test_model_run (w : Tflite.world) (model_path : string) (s : state) :
  wp (Tflite.test_model w model_path)
     (fun r s' =>
        fs s' = fs s
        /\ (r = Ret true \/ r = Ret false)
        /\ (r = Ret true <-> test_passes w (fs s !! model_path))
        /\ (r = Ret true -> printed "Model test successful!" s')) s.
Proof.
  unfold test_passes. wp_run2.
  all: split; [reflexivity|]; split; [auto|]; split; [split|].
  all: try solve [intros H; discriminate H].
  all: try solve [intros (H1 & (d & H2) & (sh & H3)); congruence].
  all: try solve [intros _; eauto 6].
  all: try solve [intros _; in_trace].
Qed.

(** X9.  The smoke test only reads: [test_model] always returns a
    boolean and leaves every file as it was; it returns [True] exactly
    when tensorflow can be imported and the two interpreter steps
    succeed on the content found at the path. *)
Theorem test_model_reads_only (w : Tflite.world) (model_path : string) (s : state) :
  let run := Tflite.test_model w model_path s in
  fs (snd run) = fs s
  /\ (fst run = Ret true \/ fst run = Ret false)
  /\ (fst run = Ret true <-> test_passes w (fs s !! model_path)).
Proof.
  pose proof (test_model_run w model_path s) as (H1 & H2 & H3 & _).
  cbv zeta. auto.
Qed.

Lemma test_model_reads_only_witness :
  fst (Tflite.test_model Examples.tflite_ok Tflite.output_path
         (start (<[Tflite.output_path := File Examples.some_bytes]> ∅))) = Ret true.
Proof.
  apply (proj2 (proj2 (test_model_reads_only Examples.tflite_ok Tflite.output_path
                         (start (<[Tflite.output_path := File Examples.some_bytes]> ∅))))).
  split; [reflexivity|]. split; eexists; reflexivity.
Defined.

(** The event is none of those a run added. *)
Ltac absent_event2 H :=
  solve [ repeat match type of H with
                 | In _ (_ ++ _) => apply in_app_or in H; destruct H as [H | H]
                 | In _ (_ :: _) => destruct H as [H | H]; [discriminate H |]
                 | In _ [] => destruct H
                 | In _ (Tflite.layer_events _ _) =>
                     apply layer_events_inv in H; destruct H as [? H]; discriminate H
                 end ].

Ltac added_is2 :=
  eexists; split; [ rewrite <- ?app_assoc;
                    first [ reflexivity | symmetry; apply app_nil_r ] |].

(** The models [download_deeplabv3_model] can return, and the files it
    leaves. *)
Lemma download_run (w : Tflite.world) (s : state) :
  wp (Tflite.download_deeplabv3_model w)
     (fun r s' =>
        fs s' = files_after_download w (fs s)
        /\ (r = Ret None
            \/ r = Ret (Some (Tflite.KerasModel Tflite.simple_layers))
            \/ r = Ret (Some (Tflite.KerasModel Tflite.minimal_layers))
            \/ exists m files',
                 Tflite.hub_load w Tflite.hub_url (fs s) = (Ok m, files')
                 /\ r = Ret (Some m))) s.
Proof.
  unfold files_after_download. wp_run2.
  all: split; [reflexivity|].
  all: first [ left; reflexivity
             | right; left; reflexivity
             | right; right; left; reflexivity
             | right; right; right; eexists; eexists; split; reflexivity ].
Qed.

(** X10.  [download_deeplabv3_model] never raises, and it touches the
    files through the load from the registry only: the files at its end
    are the ones that call left, or the ones it started with when the
    call is not reached.  What it returns is the model of the registry,
    the encoder/decoder network, the minimal network, or [None]. *)
Theorem download_returns_one_of_three (w : Tflite.world) (s : state) :
  let run := Tflite.download_deeplabv3_model w s in
  fs (snd run) = files_after_download w (fs s)
  /\ (fst run = Ret None
      \/ fst run = Ret (Some (Tflite.KerasModel Tflite.simple_layers))
      \/ fst run = Ret (Some (Tflite.KerasModel Tflite.minimal_layers))
      \/ exists m files',
           Tflite.hub_load w Tflite.hub_url (fs s) = (Ok m, files')
           /\ fst run = Ret (Some m)).
Proof. exact (download_run w s). Qed.

(** X11.  A failing import of tensorflow_hub is not fatal: with
    tensorflow imported and its version read, the check of [main] prints
    a warning and goes on, and the download then never calls the
    registry but returns one of the two hand-built networks, or
    [None]. *)
Theorem hub_import_failure_tolerated (w : Tflite.world) (s : state) (e : exc)
    (version : string) :
  Tflite.imports w tensorflow = None ->
  Tflite.tf_version w = Ok version ->
  Tflite.imports w tensorflow_hub = Some e ->
  (let run := Tflite.check_tensorflow w s in
   fst run = Ret true
   /\ printed ("Warning: TensorFlow Hub import failed: " +:+ exc_msg e) (snd run))
  /\ (let run := Tflite.download_deeplabv3_model w s in
      exists added,
        trace (snd run) = trace s ++ added
        /\ (forall url, ~ In (Call (Hub_load url)) added)
        /\ (fst run = Ret None
            \/ fst run = Ret (Some (Tflite.KerasModel Tflite.simple_layers))
            \/ fst run = Ret (Some (Tflite.KerasModel Tflite.minimal_layers)))).
Proof.
  intros Htf Hv Hhub. split; cbv zeta.
  - change (wp (Tflite.check_tensorflow w)
              (fun r s' => r = Ret true
                           /\ printed ("Warning: TensorFlow Hub import failed: "
                                       +:+ exc_msg e) s') s).
    wp_run2. split; [reflexivity | in_trace].
  - change (wp (Tflite.download_deeplabv3_model w)
              (fun r s' =>
                 exists added,
                   trace s' = trace s ++ added
                   /\ (forall url, ~ In (Call (Hub_load url)) added)
                   /\ (r = Ret None
                       \/ r = Ret (Some (Tflite.KerasModel Tflite.simple_layers))
                       \/ r = Ret (Some (Tflite.KerasModel Tflite.minimal_layers)))) s).
    wp_run2.
    all: added_is2.
    all: split; [intros url H; absent_event2 H | auto].
Qed.

Lemma hub_import_failure_tolerated_witness :
  let w := Examples.tflite_world (Examples.missing tensorflow_hub "tensorflow_hub")
             true false true in
  fst (Tflite.check_tensorflow w (start ∅)) = Ret true
  /\ fst (Tflite.download_deeplabv3_model w (start ∅))
     = Ret (Some (Tflite.KerasModel Tflite.simple_layers)).
Proof.
  intros w.
  destruct (hub_import_failure_tolerated w (start ∅) _ "2.15.0" eq_refl eq_refl eq_refl)
    as [[H1 _] _].
  split; [exact H1 | reflexivity].
Defined.

Lemma convert_run (w : Tflite.world) (m : Tflite.model) (output_path : string) (s : state) :
  wp (Tflite.convert_to_tflite w m output_path)
     (fun r s' =>
        (r = Ret false /\ fs s' = fs s)
        \/ (r = Ret true
            /\ exists b, Tflite.convert w (Tflite.converter_for m) = Ok b
                         /\ fs s' = <[output_path := File b]> (fs s))) s.
Proof.
  unfold Tflite.converter_for.
  destruct (Tflite.has_signatures m) eqn:Hs.
  all: wp_run.
  all: first [ left; split; reflexivity
             | right; split; [reflexivity|]; eexists; split;
               [reflexivity | apply write_after_open] ].
Qed.

(** Steps of [main] that take its three parts by what they come to. *)
Ltac wp_step_main :=
  lazymatch goal with
  | |- wp (Tflite.download_deeplabv3_model ?w) _ ?s1 =>
      eapply wp_consequence; [| apply (download_run w s1)];
      let H := fresh "Hd" in
      let Hfs := fresh "Hfs" in
      intros ? ? (Hfs & H); cbn [fs] in Hfs;
      destruct H as [-> | [-> | [-> | (? & ? & ? & ->)]]]; wp_simpl
  | |- wp (Tflite.convert_to_tflite ?w ?m ?p) _ ?s1 =>
      eapply wp_consequence; [| apply (convert_run w m p s1)];
      let Hfs := fresh "Hfs" in
      intros ? ? [(-> & Hfs) | (-> & ? & ? & Hfs)]; cbn [fs] in Hfs; wp_simpl
  | |- wp (Tflite.test_model ?w ?p) _ ?s1 =>
      eapply wp_consequence; [| apply (test_model_run w p s1)];
      let Hfs := fresh "Hfs" in
      let Ht := fresh "Ht" in
      let Hp := fresh "Hp" in
      intros ? ? (Hfs & [-> | ->] & Ht & Hp); cbn [fs] in Hfs; wp_simpl
  | _ => wp_step2
  end.

Lemma main_run (w : Tflite.world) (s : state) :
  wp (Tflite.main w) (main_outcome w s) s.
Proof.
  unfold main_outcome, files_after_registry. cbv zeta.
  repeat wp_step_main.
  all: repeat match goal with
         | H : fs _ = <[_ := _]> (fs _), Ht : _ <-> test_passes _ (fs _ !! _) |- _ =>
             rewrite H in Ht; rewrite lookup_insert_eq in Ht
         end.
  all: try solve [left; congruence].
  all: try solve [split; [first [left; reflexivity | right; split; reflexivity]
                         | split; [reflexivity | congruence]]].
  all: try solve [eexists _, _; split; [eassumption|]; split; [congruence|];
                  split; [apply Ht; reflexivity | in_trace]].
  all: try solve [right; eexists _, _; split; [eassumption|]; split; [congruence|];
                  intros Htp; apply Ht in Htp; discriminate Htp].
Qed.

(** X12.  The one file [main] writes itself is [deeplabv3.tflite]: at
    its end the files are the ones the registry left (the ones it
    started with, when the registry is not called), or these with the
    bytes the converter gave in [deeplabv3.tflite]; in the second case
    [main] returns [True] exactly when the smoke test passes on these
    bytes, so a failed test leaves the written file in place. *)
Theorem main_writes_converted_model_only (w : Tflite.world) (s : state) :
  let run := Tflite.main w s in
  let files := files_after_registry w (fs s) in
  fs (snd run) = files
  \/ exists m b,
       Tflite.convert w (Tflite.converter_for m) = Ok b
       /\ fs (snd run) = <[Tflite.output_path := File b]> files
       /\ (fst run = Ret true <-> test_passes w (Some (File b))).
Proof.
  cbv zeta. pose proof (main_run w s) as H. unfold wp, main_outcome in H.
  destruct (fst (Tflite.main w s)) as [[|]|e|c].
  - destruct H as (m & b & Hc & Hfs & Ht & _).
    right. exists m, b. split; [exact Hc|]. split; [exact Hfs|]. split; auto.
  - destruct H as [H | (m & b & Hc & Hfs & Ht)]; [left; exact H|].
    right. exists m, b. split; [exact Hc|]. split; [exact Hfs|].
    split; [intros E; discriminate E | intros Hp; destruct (Ht Hp)].
  - left. destruct H as ([Hi | (Hi & Hv)] & _ & Hfs); rewrite Hfs;
      unfold files_after_registry; rewrite Hi; [reflexivity|]. rewrite Hv. reflexivity.
  - destruct H.
Qed.

(** On the example installation the registry keeps its download and the
    script writes the model; the ONNX file of the engine builder, like
    every other file, is as it was. *)
Lemma main_writes_converted_model_only_witness :
  let run := Tflite.main Examples.tflite_ok (start Examples.disk) in
  fs (snd run) !! Trt.onnx_file = Examples.disk !! Trt.onnx_file
  /\ fs (snd run) !! Examples.hub_cache = Some (File Examples.some_bytes).
Proof.
  cbv zeta.
  destruct (main_writes_converted_model_only Examples.tflite_ok (start Examples.disk))
    as [-> | (m & b & _ & -> & _)].
  - split; vm_compute; reflexivity.
  - split.
    + rewrite lookup_insert_ne by discriminate. vm_compute. reflexivity.
    + rewrite lookup_insert_ne by discriminate. vm_compute. reflexivity.
Defined.

(** X13.  When [main] returns [True], [deeplabv3.tflite] holds bytes
    that the converter produced and on which the smoke test passed, and
    the line of success was printed. *)
Theorem main_true_means_tested_file (w : Tflite.world) (s : state) :
  let run := Tflite.main w s in
  fst run = Ret true ->
  (exists m b,
     Tflite.convert w (Tflite.converter_for m) = Ok b
     /\ fs (snd run) !! Tflite.output_path = Some (File b)
     /\ test_passes w (Some (File b)))
  /\ printed "SUCCESS! Model conversion completed." (snd run).
Proof.
  cbv zeta. intros E. pose proof (main_run w s) as H. unfold wp, main_outcome in H.
  rewrite E in H. destruct H as (m & b & Hc & Hfs & Ht & Hp).
  split; [|exact Hp]. exists m, b. split; [exact Hc|]. split; [|exact Ht].
  rewrite Hfs. apply lookup_insert_eq.
Qed.

Lemma main_true_means_tested_file_witness :
  fst (Tflite.main Examples.tflite_ok (start Examples.disk)) = Ret true
  /\ ((exists m b,
         Tflite.convert Examples.tflite_ok (Tflite.converter_for m) = Ok b
         /\ fs (snd (Tflite.main Examples.tflite_ok (start Examples.disk)))
              !! Tflite.output_path = Some (File b)
         /\ test_passes Examples.tflite_ok (Some (File b)))
      /\ printed "SUCCESS! Model conversion completed."
           (snd (Tflite.main Examples.tflite_ok (start Examples.disk)))).
Proof.
  assert (E : fst (Tflite.main Examples.tflite_ok (start Examples.disk)) = Ret true)
    by (vm_compute; reflexivity).
  split; [exact E|].
  exact (main_true_means_tested_file Examples.tflite_ok (start Examples.disk) E).
Defined.

Lemma main_raises_when_check_raises (w : Tflite.world) (e : exc) (s : state) :
  Tflite.imports w tensorflow = Some e
  \/ Tflite.imports w tensorflow = None /\ Tflite.tf_version w = Err e ->
  isinstance e ImportError = false ->
  fst (Tflite.main w s) = Raise e.
Proof.
  intros [Hi | (Hi & Hv)] Hn.
  all: change (wp (Tflite.main w) (fun r _ => r = Raise e) s).
  all: wp_run2.
  all: first [reflexivity | discriminate Hn].
Qed.

(** X14.  [main] lets an exception through from the first two lines of
    its check only: it raises [e] exactly when [import tensorflow]
    raises [e], or the import succeeds and reading [tf.__version__]
    raises [e], and [e] is no [ImportError].  Whatever the import of
    tensorflow_hub, the model builders, the converter and the
    interpreter raise is turned into a warning or the result [False]. *)
Theorem main_raises_iff (w : Tflite.world) (e : exc) (s : state) :
  fst (Tflite.main w s) = Raise e
  <-> (Tflite.imports w tensorflow = Some e
       \/ Tflite.imports w tensorflow = None /\ Tflite.tf_version w = Err e)
      /\ isinstance e ImportError = false.
Proof.
  split.
  - intros E. pose proof (main_run w s) as H. unfold wp, main_outcome in H.
    rewrite E in H. destruct H as (H1 & H2 & _). split; assumption.
  - intros (H1 & H2). exact (main_raises_when_check_raises w e s H1 H2).
Qed.

Lemma main_raises_iff_witness :
  fst (Tflite.main MoreExamples.tflite_broken (start Examples.disk))
  = Raise MoreExamples.broken_tensorflow
  /\ fst (Tflite.main MoreExamples.tflite_no_version (start Examples.disk))
     = Raise MoreExamples.no_version.
Proof.
  split.
  - apply (main_raises_iff MoreExamples.tflite_broken MoreExamples.broken_tensorflow
             (start Examples.disk)).
    split; [left; reflexivity | reflexivity].
  - apply (main_raises_iff MoreExamples.tflite_no_version MoreExamples.no_version
             (start Examples.disk)).
    split; [right; split; reflexivity | reflexivity].
Defined.

(* ===================================================================== *)
(** * The landmark exporter: directories and the converter *)
(* ===================================================================== *)

Lemma only_adds_refl (files : fsT) : only_adds_directories files files.
Proof. split; auto. Qed.

Lemma only_adds_trans (a b c : fsT) :
  only_adds_directories a b -> only_adds_directories b c -> only_adds_directories a c.
Proof.
  intros (H1 & H2) (H3 & H4). split.
  - intros k n H. apply H3, H1, H.
  - intros k n H. destruct (H4 k n H) as [H' | ->]; [apply H2, H' | now right].
Qed.

Lemma only_adds_insert (files : fsT) (k : string) :
  files !! k = None -> only_adds_directories files (<[k := Dir]> files).
Proof.
  intros Hk. split.
  - intros k' n H. destruct (decide (k = k')) as [<- | Hne]; [congruence|].
    now rewrite lookup_insert_ne.
  - intros k' n H. destruct (decide (k = k')) as [<- | Hne].
    + rewrite lookup_insert_eq in H. right. congruence.
    + rewrite lookup_insert_ne in H by exact Hne. now left.
Qed.

Lemma mkdir_chain_run (todo : list string) : forall (done : PyPath.path) (s : state),
  wp (PyPath.mkdir_chain done todo)
     (mkdir_outcome (match todo with
                     | [] => None
                     | _ => Some (PyPath.to_string (done ++ todo))
                     end) s) s.
Proof.
  induction todo as [|part rest IH]; intros done s.
  - repeat split; auto.
  - cbn [PyPath.mkdir_chain]. apply wp_bind. unfold wp at 1, PyPath.mkdir_one.
    destruct (fs s !! PyPath.to_string (done ++ [part])) as [[d|]|] eqn:Hd;
      cbn [fst snd]; unfold after_bind.
    + unfold mkdir_outcome. split; [reflexivity|]. split; [apply only_adds_refl|].
      destruct rest; cbn [exc_cls]; auto.
    + eapply wp_consequence; [| apply (IH (done ++ [part]) s)].
      intros r s' (Ht & Ha & Hr). split; [exact Ht|]. split; [exact Ha|].
      destruct r as [[]|e|c]; try exact Hr.
      destruct rest as [|p2 rest].
      * destruct Ha as (Hk & _). apply Hk, Hd.
      * rewrite <- app_assoc in Hr. exact Hr.
    + eapply wp_consequence; [| apply (IH (done ++ [part]) _)].
      cbn [fs trace].
      intros r s' (Ht & Ha & Hr). split; [exact Ht|].
      split; [exact (only_adds_trans _ _ _ (only_adds_insert _ _ Hd) Ha)|].
      destruct r as [[]|e|c]; try exact Hr.
      destruct rest as [|p2 rest].
      * destruct Ha as (Hk & _). apply Hk, lookup_insert_eq.
      * rewrite <- app_assoc in Hr. exact Hr.
Qed.

Lemma mkdir_parents_run (p : PyPath.path) (s : state) :
  wp (PyPath.mkdir_parents p)
     (fun r s' =>
        trace s' = trace s ++ [Mkdir (PyPath.to_string p)]
        /\ only_adds_directories (fs s) (fs s')
        /\ match r with
           | Ret _ =>
               p <> [] -> p <> ["/"] -> p <> ["//"] ->
               fs s' !! PyPath.to_string p = Some Dir
           | Raise e => exc_cls e = FileExistsError \/ exc_cls e = NotADirectoryError
           | SysExit _ => False
           end) s.
Proof.
  destruct p as [|x rest].
  - unfold PyPath.mkdir_parents. apply wp_bind, wp_log. unfold after_bind.
    apply wp_ret. split; [reflexivity|]. split; [apply only_adds_refl|].
    intros H. now destruct H.
  - unfold PyPath.mkdir_parents. apply wp_bind, wp_log. unfold after_bind.
    destruct (PyPath.is_root x) eqn:Hx.
    + eapply wp_consequence; [| apply (mkdir_chain_run rest [x])].
      unfold logged; cbn [fs trace].
      intros r s' (Ht & Ha & Hr). split; [exact Ht|]. split; [exact Ha|].
      destruct r as [[]|e|c]; try exact Hr.
      intros _ H1 H2. destruct rest as [|p2 rest]; [|exact Hr].
      unfold PyPath.is_root in Hx. apply orb_true_iff in Hx.
      destruct Hx as [Hx | Hx]; apply String.eqb_eq in Hx; subst x;
        [now destruct H1 | now destruct H2].
    + eapply wp_consequence; [| apply (mkdir_chain_run (x :: rest) [])].
      unfold logged; cbn [fs trace].
      intros r s' (Ht & Ha & Hr). split; [exact Ht|]. split; [exact Ha|].
      destruct r as [[]|e|c]; try exact Hr.
      intros _ _ _. exact Hr.
Qed.

Ltac wp_step_hands :=
  lazymatch goal with
  | |- wp (PyPath.mkdir_parents ?p) _ ?s1 =>
      eapply wp_consequence; [| apply (mkdir_parents_run p s1)];
      let Ht := fresh "Ht" in
      let Ha := fresh "Ha" in
      let Hr := fresh "Hr" in
      intros [[]|?|?] ? (Ht & Ha & Hr); cbn [fs trace] in Ht, Ha, Hr;
      wp_simpl
  | _ => wp_step
  end.

Lemma export_run (w : Hands.world) (output_path : PyPath.path)
    (model_type : string) (s : state) :
  wp (Hands.export_hand_landmark w output_path model_type)
     (export_outcome w output_path model_type s) s.
Proof.
  unfold export_outcome, Hands.export_hand_landmark.
  cbn [Hands.getitem Hands.MODEL_FILES].
  repeat wp_step_hands.
  all: repeat match goal with
         | H : (_ =? _)%string = true |- _ => apply String.eqb_eq in H; subst
         | H : (if bool_decide ?P then false else true) = false |- _ =>
             let E := fresh "E" in
             destruct (bool_decide P) eqn:E; [clear H | discriminate H];
             apply bool_decide_eq_true_1 in E
         | u : unit |- _ => destruct u
         | H : trace _ = _ |- _ => rewrite H; clear H
         end.
  all: cbn [exc_cls]; rewrite <- ?app_assoc; cbn [app].
  all: try solve [left; split; [reflexivity | right; reflexivity]].
  all: try solve [left; split; [reflexivity|]; left; split; [reflexivity|];
                  apply String.eqb_neq in Heqb, Heqb0;
                  intros [H | [H | []]]; auto].
  all: try solve [right; left; split; [reflexivity | split; assumption]].
  all: try solve [eexists _, _; split; [cbn; eauto|];
                  split; [eassumption|]; split; [eassumption|];
                  split; [eassumption|]; split; [eassumption | reflexivity]].
  all: try solve [right; right; eexists _, _; split; [cbn; eauto|];
                  split; [eassumption|]; split; [eassumption | reflexivity]].
  all: assumption.
Qed.

(** X15.  When [export_hand_landmark] returns, the model type was a key
    of [MODEL_FILES], the bundled file was there at the start, and the
    run made exactly two steps: the [mkdir] of the parent of the output
    path, which kept every entry and added directories at most, and then
    one call of the converter, from the bundled file to the output path,
    which returned without an error. *)
Theorem export_returns_after_one_conversion (w : Hands.world)
    (output_path : PyPath.path) (model_type : string) (s : state) :
  let run := Hands.export_hand_landmark w output_path model_type s in
  let dst := PyPath.to_string output_path in
  fst run = Ret tt ->
  exists model_name files1,
    let src := PyPath.to_string (PyPath.div (Hands.MODEL_DIR w) model_name) in
    In (model_type, model_name) Hands.MODEL_FILES
    /\ is_Some (fs s !! src)
    /\ only_adds_directories (fs s) files1
    /\ Hands.convert w src dst files1 = (Ok tt, fs (snd run))
    /\ trace (snd run)
       = trace s ++ [Mkdir (PyPath.to_string (PyPath.parent output_path));
                     Call (T2O_convert src dst)].
Proof.
  cbv zeta. intros E.
  pose proof (export_run w output_path model_type s) as H.
  unfold wp, export_outcome in H. rewrite E in H.
  destruct H as (name & files1 & H1 & H2 & H3 & _ & H5 & H6).
  exists name, files1. auto.
Qed.

Lemma export_returns_after_one_conversion_witness :
  fst (Hands.export_hand_landmark Examples.hands_ok ["out"; "hand.onnx"] "lite"
         (start Examples.disk)) = Ret tt
  /\ exists model_name files1,
       In ("lite", model_name) Hands.MODEL_FILES
       /\ is_Some (Examples.disk
                   !! PyPath.to_string
                        (PyPath.div (Hands.MODEL_DIR Examples.hands_ok) model_name))
       /\ only_adds_directories Examples.disk files1
       /\ Hands.convert Examples.hands_ok
            (PyPath.to_string (PyPath.div (Hands.MODEL_DIR Examples.hands_ok) model_name))
            "out/hand.onnx" files1
          = (Ok tt,
             fs (snd (Hands.export_hand_landmark Examples.hands_ok ["out"; "hand.onnx"]
                        "lite" (start Examples.disk))))
       /\ trace (snd (Hands.export_hand_landmark Examples.hands_ok ["out"; "hand.onnx"]
                        "lite" (start Examples.disk)))
          = [] ++ [Mkdir "out";
                   Call (T2O_convert
                           (PyPath.to_string
                              (PyPath.div (Hands.MODEL_DIR Examples.hands_ok) model_name))
                           "out/hand.onnx")].
Proof.
  assert (E : fst (Hands.export_hand_landmark Examples.hands_ok ["out"; "hand.onnx"] "lite"
                     (start Examples.disk)) = Ret tt) by (vm_compute; reflexivity).
  split; [exact E|].
  exact (export_returns_after_one_conversion Examples.hands_ok ["out"; "hand.onnx"] "lite"
           (start Examples.disk) E).
Defined.

(** X16.  The directory is ready before the converter runs: when the
    parent of the output path is neither the working directory nor a
    root and the converter is called, it is called on files in which
    that parent is a directory. *)
Theorem converter_finds_parent_directory (w : Hands.world)
    (output_path : PyPath.path) (model_type : string) (s : state) :
  let run := Hands.export_hand_landmark w output_path model_type s in
  let parent := PyPath.parent output_path in
  fst run = Ret tt -> parent <> [] -> parent <> ["/"] -> parent <> ["//"] ->
  exists model_name files1,
    files1 !! PyPath.to_string parent = Some Dir
    /\ Hands.convert w
         (PyPath.to_string (PyPath.div (Hands.MODEL_DIR w) model_name))
         (PyPath.to_string output_path) files1
       = (Ok tt, fs (snd run)).
Proof.
  cbv zeta. intros E Hp Hr Hr2.
  pose proof (export_run w output_path model_type s) as H.
  unfold wp, export_outcome in H. rewrite E in H.
  destruct H as (name & files1 & _ & _ & _ & H4 & H5 & _).
  exists name, files1. split; [exact (H4 Hp Hr Hr2) | exact H5].
Qed.


Lemma converter_finds_parent_directory_witness :
  exists model_name files1,
    files1 !! "out" = Some Dir
    /\ Hands.convert Examples.hands_ok
         (PyPath.to_string (PyPath.div (Hands.MODEL_DIR Examples.hands_ok) model_name))
         "out/hand.onnx" files1
       = (Ok tt,
          fs (snd (Hands.export_hand_landmark Examples.hands_ok ["out"; "hand.onnx"]
                     "lite" (start Examples.disk)))).
Proof.
  refine (converter_finds_parent_directory Examples.hands_ok ["out"; "hand.onnx"] "lite"
            (start Examples.disk) _ _ _ _).
  - vm_compute; reflexivity.
  - discriminate.
  - discriminate.
  - discriminate.
Defined.


(* ===================================================================== *)
(** * The landmark exporter: the model type from the command line *)
(* ===================================================================== *)

Lemma finish_model (acc : Argparse.partial) (m : string) :
  parsed_model (Argparse.finish acc) = Some m -> Argparse.p_model acc = Some m.
Proof.
  unfold Argparse.finish.
  destruct (Argparse.p_output acc) as [[o|]|]; [| |discriminate].
  - destruct (Argparse.p_extras acc); [discriminate|].
    destruct (Argparse.p_model acc); intros H; exact H.
  - destruct (Argparse.p_extras acc); [discriminate|]. intros H; exact H.
Qed.

Lemma store_model (choices : list string) (opt : Argparse.opt) (v : string)
    (acc : Argparse.partial) (k : Argparse.partial -> Argparse.parse_outcome)
    (m : string) :
  (forall acc', (forall m', Argparse.p_model acc' = Some m' -> In m' choices) ->
                parsed_model (k acc') = Some m -> In m choices) ->
  (forall m', Argparse.p_model acc = Some m' -> In m' choices) ->
  parsed_model (Argparse.store choices opt v acc k) = Some m -> In m choices.
Proof.
  intros Hk Hacc. unfold Argparse.store. destruct opt.
  - apply Hk. exact Hacc.
  - apply Hk. exact Hacc.
  - destruct (String.eqb v "--").
    { apply Hk. cbn [Argparse.p_model]. intros m' H. discriminate H. }
    destruct (existsb (String.eqb v) choices) eqn:Hv; [|discriminate].
    apply Hk. cbn [Argparse.p_model]. intros m' H. injection H as <-.
    apply existsb_exists in Hv. destruct Hv as (x & Hin & Hx).
    apply String.eqb_eq in Hx. now subst.
Qed.

Lemma parse_tokens_model (choices : list string) (m : string) :
  forall (n : nat) (args : list string) (acc : Argparse.partial),
    length args <= n ->
    (forall m', Argparse.p_model acc = Some m' -> In m' choices) ->
    parsed_model (Argparse.parse_tokens choices args acc) = Some m -> In m choices.
Proof.
  assert (Hfin : forall acc b,
                   (forall m', Argparse.p_model acc = Some m' -> In m' choices) ->
                   parsed_model (Argparse.finish (Argparse.with_extras acc b)) = Some m ->
                   In m choices).
  { intros acc b Hacc H. apply finish_model in H. apply Hacc, H. }
  assert (Hfin0 : forall acc,
                    (forall m', Argparse.p_model acc = Some m' -> In m' choices) ->
                    parsed_model (Argparse.finish acc) = Some m -> In m choices).
  { intros acc Hacc H. apply finish_model in H. apply Hacc, H. }
  induction n as [|n IH]; intros args acc Hlen Hacc.
  - destruct args; [|cbn in Hlen; lia]. apply Hfin0, Hacc.
  - destruct args as [|a rest]; [apply Hfin0, Hacc|].
    cbn [length] in Hlen. cbn [Argparse.parse_tokens].
    destruct (String.eqb a "--"); [apply Hfin, Hacc|].
    destruct (Argparse.classify a) as [|opt [v|]|more| |].
    + apply IH; [lia | exact Hacc].
    + destruct opt; try discriminate.
      all: apply store_model; [|exact Hacc].
      all: intros acc' Hacc'; apply IH; [lia | exact Hacc'].
    + destruct opt.
      * discriminate.
      * destruct rest as [|v rest']; [discriminate|].
        destruct (String.eqb v "--"); [discriminate|].
        destruct (Argparse.is_value v); [|discriminate].
        apply store_model; [|exact Hacc].
        intros acc' Hacc'. apply IH; [cbn [length] in Hlen; lia | exact Hacc'].
      * destruct rest as [|v rest']; [discriminate|].
        destruct (String.eqb v "--"); [discriminate|].
        destruct (Argparse.is_value v); [|discriminate].
        apply store_model; [|exact Hacc].
        intros acc' Hacc'. apply IH; [cbn [length] in Hlen; lia | exact Hacc'].
    + destruct (Argparse.all_h more); discriminate.
    + apply IH; [lia | exact Hacc].
    + discriminate.
Qed.

Lemma argparse_model_is_key (args : list string) (m : string) :
  parsed_model (Hands.argparse_args args) = Some m -> In m (Hands.keys Hands.MODEL_FILES).
Proof.
  unfold Hands.argparse_args, Argparse.parse_args.
  destruct (Argparse.ambiguous args); [discriminate|].
  apply (parse_tokens_model _ m (length args)); [lia|].
  cbn. intros m' H. injection H as <-. auto.
Qed.


